(** * Sublime-AutoSetSyntax: a shallow embedding and its properties

    The repository holds two variants of one Sublime Text plugin:
    [AutoSetNewFileSyntax.py] (module [NewFile] below) and
    [AutoSetSyntax.py] (module [AutoSet] below).  Both pick a syntax
    definition for a view by searching the view's first line with the
    regular expressions of an ordered mapping table.

    Python's [re] and [yaml] libraries and Sublime's resource store are
    not part of the repository: they enter as interfaces ([ReLib],
    [YamlLib], [Resources]).  Host calls that a property talks about
    (log records, alerts, commands, regex searches, YAML parses) are
    collected in a trace of [Event]s. *)

From Stdlib Require Import List String Ascii ZArith Bool Arith Lia.
Import ListNotations.
Open Scope string_scope.
Open Scope list_scope.

(* ================================================================= *)
(** * Python values, strings and control flow *)

Module Py.

(** ** Characters and strings *)

Definition chr (n : nat) : string := String (ascii_of_nat n) EmptyString.

Definition nl : string := chr 10.
Definition dquote : string := chr 34.

(** [str.isspace] on the code points below 256 (characters are modelled
    as [ascii]): TAB..CR, FS..US, SPACE, NEL and NBSP. *)
Definition isspace (c : ascii) : bool :=
  let n := nat_of_ascii c in
  (((9 <=? n) && (n <=? 13)) || ((28 <=? n) && (n <=? 32))
   || (n =? 133) || (n =? 160))%nat.

Fixpoint lstrip (s : string) : string :=
  match s with
  | EmptyString => EmptyString
  | String c s' => if isspace c then lstrip s' else s
  end.

Fixpoint rstrip (s : string) : string :=
  match s with
  | EmptyString => EmptyString
  | String c s' =>
      match rstrip s' with
      | EmptyString => if isspace c then EmptyString else String c EmptyString
      | r => String c r
      end
  end.

(** [s.strip()] *)
Definition strip (s : string) : string := rstrip (lstrip s).

(** Lowest offset at which [sub] occurs in [s], counted from [i]. *)
Fixpoint find_from (sub s : string) (i : nat) : option nat :=
  if String.prefix sub s then Some i
  else match s with
       | EmptyString => None
       | String _ s' => find_from sub s' (S i)
       end.

(** [s.find(sub)]: the lowest index of [sub] in [s], or [-1]. *)
Definition find (s sub : string) : Z :=
  match find_from sub s 0 with
  | Some i => Z.of_nat i
  | None => (-1)%Z
  end.

(** An index of a slice, as Python normalises it: a negative index counts
    from the end, and the result is clamped to [0 .. len]. *)
Definition slice_index (len : nat) (i : Z) : nat :=
  let j := if (i <? 0)%Z then (i + Z.of_nat len)%Z else i in
  Nat.min len (Z.to_nat j).

(** [s[lo:hi]] *)
Definition slice (s : string) (lo hi : Z) : string :=
  let len := String.length s in
  let l := slice_index len lo in
  let h := slice_index len hi in
  String.substring l (h - l) s.

(** [s[lo:]] *)
Definition slice_from (s : string) (lo : Z) : string :=
  let len := String.length s in
  let l := slice_index len lo in
  String.substring l (len - l) s.

(** ** Exceptions and results *)

Inductive exn : Type :=
| IndexError
| TypeError
| KeyError
| YAMLError
| ReError
| AttributeError.

Inductive result (A : Type) : Type :=
| Ok (a : A)
| Raise (e : exn).
Arguments Ok {A} a.
Arguments Raise {A} e.

(** [s[0]] *)
Definition index0 (s : string) : result ascii :=
  match s with
  | EmptyString => Raise IndexError
  | String c _ => Ok c
  end.

(** ** Values produced by [yaml.load] *)

#[local] Set Warnings "-register-all".
Inductive PyVal : Type :=
| PNone
| PStr (s : string)
| PScalar (text : string)   (* int, float, bool, date: carried by its [str()] *)
| PList (xs : list PyVal)
| PDict (items : list (PyVal * PyVal)).

Definition is_key (k : string) (v : PyVal) : bool :=
  match v with
  | PStr s => String.eqb s k
  | _ => false
  end.

Definition contains (s sub : string) : bool :=
  match find_from sub s 0 with Some _ => true | None => false end.

(** [k in v] for a string [k] *)
Definition py_in (k : string) (v : PyVal) : result bool :=
  match v with
  | PDict items => Ok (existsb (fun kv => is_key k (fst kv)) items)
  | PList xs => Ok (existsb (is_key k) xs)
  | PStr s => Ok (contains s k)
  | PNone | PScalar _ => Raise TypeError
  end.

Fixpoint dict_get (k : string) (items : list (PyVal * PyVal)) : option PyVal :=
  match items with
  | [] => None
  | (k', v) :: rest => if is_key k k' then Some v else dict_get k rest
  end.

(** [v[k]] for a string [k] *)
Definition py_getitem (v : PyVal) (k : string) : result PyVal :=
  match v with
  | PDict items =>
      match dict_get k items with
      | Some x => Ok x
      | None => Raise KeyError
      end
  | _ => Raise TypeError
  end.

(** ** Host calls observed by the properties *)

Inductive Event (Regex : Type) : Type :=
| LogError (msg : string)              (* logger.error *)
| LogWarning (msg : string)            (* logger.warning *)
| ErrorMessage (msg : string)          (* sublime.error_message *)
| YamlLoad (content : string)          (* yaml.load *)
| Search (r : Regex) (line : string)   (* regex.search *)
| RunCommand (name : string).          (* view.run_command *)
Arguments LogError {Regex} msg.
Arguments LogWarning {Regex} msg.
Arguments ErrorMessage {Regex} msg.
Arguments YamlLoad {Regex} content.
Arguments Search {Regex} r line.
Arguments RunCommand {Regex} name.

(** ** Computations: a result (or a raised exception) and the host calls
    made on the way, oldest first *)

Definition M (E A : Type) : Type := (result A * list E)%type.

Definition ret {E A} (a : A) : M E A := (Ok a, []).

Definition raise {E A} (e : exn) : M E A := (Raise e, []).

Definition emit {E} (ev : E) : M E unit := (Ok tt, [ev]).

Definition bind {E A B} (m : M E A) (f : A -> M E B) : M E B :=
  match m with
  | (Ok a, t) => let '(r, t') := f a in (r, t ++ t')
  | (Raise e, t) => (Raise e, t)
  end.

(** [try: m  except: h] with a bare [except] *)
Definition try_except {E A} (m : M E A) (h : M E A) : M E A :=
  match m with
  | (Ok a, t) => (Ok a, t)
  | (Raise _, t) => let '(r, t') := h in (r, t ++ t')
  end.

Definition lift {E A} (r : result A) : M E A := (r, []).

(** [for x in xs: s = body x s] *)
Fixpoint for_each {E A S} (xs : list A) (body : A -> S -> M E S) (s : S)
  : M E S :=
  match xs with
  | [] => ret s
  | x :: xs' => bind (body x s) (for_each xs' body)
  end.

End Py.

Declare Scope py_scope.
Delimit Scope py_scope with py.
Notation "x <- m ;; k" := (Py.bind m (fun x => k))
  (at level 61, m at next level, right associativity) : py_scope.
Notation "m ;;; k" := (Py.bind m (fun _ => k))
  (at level 61, right associativity) : py_scope.

(* ================================================================= *)
(** * Libraries and host objects the plugin calls *)

(** Python's [re]: [re_compile p = None] when [re.compile(p)] raises;
    [re_search r s = true] when [r.search(s)] is not [None]. *)
Class ReLib : Type := {
  Regex : Type;
  re_compile : string -> option Regex;
  re_search : Regex -> string -> bool
}.

(** PyYAML: [yaml_load] returns the parsed document or raises;
    [container_str] is Python's [str()] of a list or of a dict. *)
Class YamlLib : Type := {
  yaml_load : string -> Py.result Py.PyVal;
  container_str : Py.PyVal -> string
}.

Module Sublime.

(** [sublime.Region(a, b)] *)
Record Region : Type := mkRegion { a : Z; b : Z }.

Definition Region_begin (r : Region) : Z := Z.min (a r) (b r).
Definition Region_end (r : Region) : Z := Z.max (a r) (b r).

(** What the plugin reads and writes of a [sublime.View]: the buffer's
    text (lines are separated by the newline character), the selection,
    the scope name at point 0 and the assigned syntax file. *)
Record View : Type := mkView {
  buffer : string;
  sel : list Region;
  scope_name0 : string;
  syntax_file : string
}.

(** Offset of the first newline of [s], or the length of [s]. *)
Fixpoint eol (s : string) : nat :=
  match s with
  | EmptyString => 0
  | String c s' => if Ascii.eqb c (ascii_of_nat 10) then 0 else S (eol s')
  end.

(** [view.line(0)]: the region of the line that holds point 0. *)
Definition line0 (v : View) : Region :=
  mkRegion 0 (Z.of_nat (eol (buffer v))).

(** [view.substr(region)] *)
Definition substr (v : View) (r : Region) : string :=
  Py.slice (buffer v) (Z.max 0 (Region_begin r)) (Z.max 0 (Region_end r)).

Fixpoint count_newlines (s : string) : Z :=
  match s with
  | EmptyString => 0
  | String c s' =>
      ((if Ascii.eqb c (ascii_of_nat 10) then 1 else 0) + count_newlines s')%Z
  end.

(** [view.rowcol(point)[0]]: the row of [point]. *)
Definition row (v : View) (point : Z) : Z :=
  count_newlines (Py.slice (buffer v) 0 (Z.max 0 point)).

(** [view.set_syntax_file(f)] *)
Definition set_syntax_file (v : View) (f : string) : View :=
  mkView (buffer v) (sel v) (scope_name0 v) f.

(** [sublime.find_resources(pattern)] and [sublime.load_resource(name)]
    over the installed packages. *)
Record Resources : Type := mkResources {
  find_resources : string -> list string;
  load_resource : string -> string
}.

End Sublime.

(** [os.path.splitext], the POSIX version (resource paths use [/]). *)
Module OsPath.

Fixpoint rfind_char_from (c : ascii) (s : string) (i : nat) (last : Z) : Z :=
  match s with
  | EmptyString => last
  | String d s' =>
      rfind_char_from c s' (S i) (if Ascii.eqb d c then Z.of_nat i else last)
  end.

(** [p.rfind(c)] for a one-character [c] *)
Definition rfind_char (p : string) (c : ascii) : Z :=
  rfind_char_from c p 0 (-1)%Z.

(** The loop that skips the leading dots of the file name: [n] positions
    are left to look at, starting at [filenameIndex]. *)
Fixpoint skip_leading_dots (p : string) (filenameIndex : Z) (n : nat)
  (dotIndex : Z) : option (string * string) :=
  match n with
  | O => None
  | S n' =>
      if negb (String.eqb (Py.slice p filenameIndex (filenameIndex + 1)) ".")
      then Some (Py.slice p 0 dotIndex, Py.slice_from p dotIndex)
      else skip_leading_dots p (filenameIndex + 1) n' dotIndex
  end.

Definition splitext (p : string) : string * string :=
  let sepIndex := rfind_char p "/"%char in
  let dotIndex := rfind_char p "."%char in
  if (sepIndex <? dotIndex)%Z then
    let filenameIndex := (sepIndex + 1)%Z in
    match skip_leading_dots p filenameIndex
            (Z.to_nat (dotIndex - filenameIndex)) dotIndex with
    | Some r => r
    | None => (p, EmptyString)
    end
  else (p, EmptyString).

End OsPath.

(* ================================================================= *)
(** * AutoSetNewFileSyntax.py *)

Module NewFile.
Import Py Sublime.
Local Open Scope py_scope.

(** The settings file, as far as this variant reads it.  [syntax_mapping]
    lists the items of the dictionary in the order [.items()] yields
    them. *)
Record Settings : Type := mkSettings {
  syntax_mapping : list (string * list string);
  first_line_length_max : Z
}.

Section WithLibraries.
Context {RE : ReLib} {YAML : YamlLib}.

Definition Ev : Type := Event Regex.

(** A tuple of the mapping table: the path of a syntax file and a list
    of compiled first-line regexes. *)
Definition Entry : Type := (string * list Regex)%type.

(** The instance attributes of [class SyntaxMappings]. *)
Record SyntaxMappings : Type := mkSyntaxMappings {
  syntaxMappings : list Entry;
  syntaxMappingsSt : list Entry
}.

(** [str(v)], as [str.format] inserts a value. *)
Definition py_str (v : PyVal) : string :=
  match v with
  | PNone => "None"
  | PStr s => s
  | PScalar t => t
  | PList _ | PDict _ => container_str v
  end.

(** [re.compile(v)]: raises on a value that is no string and on a string
    that is no regular expression. *)
Definition py_re_compile (v : PyVal) : M Ev Regex :=
  match v with
  | PStr s =>
      match re_compile s with
      | Some r => ret r
      | None => raise ReError
      end
  | _ => raise TypeError
  end.

Definition value (self : SyntaxMappings) : list Entry :=
  syntaxMappings self.

(** The inner loop of [buildSyntaxMappingsFromUser]. *)
Definition compileFirstLineMatches (syntaxFile : string)
  (firstLineMatches : list string) : M Ev (list Regex) :=
  for_each firstLineMatches
    (fun firstLineMatch firstLineMatchRegexes =>
       try_except
         (r <- py_re_compile (PStr firstLineMatch) ;;
          ret (firstLineMatchRegexes ++ [r]))
         (emit (LogError ("regex compilation failed in user settings "
                          ++ syntaxFile ++ ": " ++ firstLineMatch)%string) ;;;
          ret firstLineMatchRegexes))
    [].

(** The body of the outer loop of [buildSyntaxMappingsFromUser]: one
    item of [syntax_mapping], with the list built so far. *)
Definition addUserMapping (item : string * list string)
  (syntaxMappings : list Entry) : M Ev (list Entry) :=
  let '(syntaxFile, firstLineMatches) := item in
  firstLineMatchRegexes <-
    compileFirstLineMatches syntaxFile firstLineMatches ;;
  if (0 <? List.length firstLineMatchRegexes)%nat
  then ret (syntaxMappings ++ [(syntaxFile, firstLineMatchRegexes)])
  else ret syntaxMappings.

Definition buildSyntaxMappingsFromUser (settings : Settings)
  : M Ev (list Entry) :=
  for_each (syntax_mapping settings) addUserMapping [].

Definition rebuildSyntaxMappings (settings : Settings)
  (self : SyntaxMappings) : M Ev SyntaxMappings :=
  user <- buildSyntaxMappingsFromUser settings ;;
  ret (mkSyntaxMappings (user ++ syntaxMappingsSt self)
                        (syntaxMappingsSt self)).

(** The dictionary [syntaxGriddle], as the list of its items.  The
    order of [.items()] is taken to be the order of insertion; nothing
    below depends on it. *)
Definition griddle_mem (name : string) (g : list (string * string)) : bool :=
  existsb (fun kv => String.eqb (fst kv) name) g.

Definition findSyntaxResources (res : Resources) (dropDuplicated : bool)
  : list string :=
  let syntaxFileExts := [".sublime-syntax"; ".tmLanguage"] in
  if negb dropDuplicated then
    fold_left
      (fun syntaxFiles syntaxFileExt =>
         syntaxFiles ++ find_resources res ("*" ++ syntaxFileExt)%string)
      syntaxFileExts []
  else
    let syntaxGriddle :=
      fold_left
        (fun griddle syntaxFileExt =>
           fold_left
             (fun g resource =>
                let '(resourceName, resourceExt) := OsPath.splitext resource in
                if negb (griddle_mem resourceName g)
                then g ++ [(resourceName, resourceExt)]
                else g)
             (find_resources res ("*" ++ syntaxFileExt)%string) griddle)
        syntaxFileExts [] in
    map (fun ne => (fst ne ++ snd ne)%string) syntaxGriddle.

Definition findFirstLineMatchYaml (content : string) : M Ev PyVal :=
  let cutPos := find content "contexts:" in
  let content :=
    if negb (cutPos =? -1)%Z then slice content 0 cutPos else content in
  if (find content "first_line_match" =? -1)%Z then ret PNone
  else
    emit (YamlLoad content) ;;;
    yamlDict <- lift (yaml_load content) ;;
    present <- lift (py_in "first_line_match" yamlDict) ;;
    if present then lift (py_getitem yamlDict "first_line_match")
    else ret PNone.

(** The regex of [findFirstLineMatchXml], matched at the start of [s]:
    the key, any white space, the opening tag, and the shortest text up
    to a closing tag (the group). *)
Definition strip_prefix (p s : string) : option string :=
  if String.prefix p s
  then Some (String.substring (String.length p)
               (String.length s - String.length p) s)
  else None.

Definition match_firstLineMatch_here (s : string) : option string :=
  match strip_prefix "firstLineMatch</key>" s with
  | None => None
  | Some rest =>
      match strip_prefix "<string>" (lstrip rest) with
      | None => None
      | Some body =>
          match find_from "</string>" body 0 with
          | Some n => Some (String.substring 0 n body)
          | None => None
          end
      end
  end.

(** [re.search] of that regex: the match at the lowest start. *)
Fixpoint search_firstLineMatch (s : string) : option string :=
  match match_firstLineMatch_here s with
  | Some g => Some g
  | None =>
      match s with
      | EmptyString => None
      | String _ s' => search_firstLineMatch s'
      end
  end.

Definition findFirstLineMatchXml (content : string) : PyVal :=
  let cutPoint := find content "firstLineMatch" in
  if (cutPoint =? -1)%Z then PNone
  else
    let content := slice_from content cutPoint in
    match search_firstLineMatch content with
    | Some group1 => PStr group1
    | None => PNone
    end.

Definition findFirstLineMatch (content : string) : M Ev PyVal :=
  let content := strip content in
  c <- lift (index0 content) ;;
  if Ascii.eqb c "%"%char then findFirstLineMatchYaml content
  else ret (findFirstLineMatchXml content).

Definition is_none (v : PyVal) : bool :=
  match v with PNone => true | _ => false end.

(** The body of the loop of [buildSyntaxMappingsFromSt]: one syntax
    resource, with the list built so far. *)
Definition addSyntaxResource (res : Resources) (syntaxFile : string)
  (syntaxMappings : list Entry) : M Ev (list Entry) :=
  firstLineMatch <- findFirstLineMatch (load_resource res syntaxFile) ;;
  if negb (is_none firstLineMatch) then
    try_except
      (r <- py_re_compile firstLineMatch ;;
       ret (syntaxMappings ++ [(syntaxFile, [r])]))
      (emit (LogError ("regex compilation failed in " ++ syntaxFile
                       ++ ": " ++ py_str firstLineMatch)%string) ;;;
       ret syntaxMappings)
  else ret syntaxMappings.

Definition buildSyntaxMappingsFromSt (res : Resources) : M Ev (list Entry) :=
  for_each (findSyntaxResources res true) (addSyntaxResource res) [].

(** [SyntaxMappings.__init__] (the registration of
    [rebuildSyntaxMappings] as the listener of [syntax_mapping] is the
    host's: it calls [rebuildSyntaxMappings] with the new settings). *)
Definition init (res : Resources) (settings : Settings) : M Ev SyntaxMappings :=
  st <- buildSyntaxMappingsFromSt res ;;
  rebuildSyntaxMappings settings (mkSyntaxMappings [] st).

Definition getPartialFirstLine (settings : Settings) (view : View) : string :=
  let region := line0 view in
  let firstLineLengthMax := first_line_length_max settings in
  let region :=
    if (0 <=? firstLineLengthMax)%Z
    then mkRegion 0 (Z.min (Region_end region) firstLineLengthMax)
    else region in
  substr view region.

(** The inner loop of [matchAndSetSyntax]: [true] when a regex of the
    list is found in [firstLine]. *)
Fixpoint searchRegexes (firstLine : string) (firstLineMatchRegexes : list Regex)
  : M Ev bool :=
  match firstLineMatchRegexes with
  | [] => ret false
  | firstLineMatchRegex :: rest =>
      emit (Search firstLineMatchRegex firstLine) ;;;
      if re_search firstLineMatchRegex firstLine then ret true
      else searchRegexes firstLine rest
  end.

(** The outer loop of [matchAndSetSyntax]. *)
Fixpoint scanMappings (firstLine : string) (mappings : list Entry)
  (view : View) : M Ev View :=
  match mappings with
  | [] => ret view
  | (syntaxFile, firstLineMatchRegexes) :: rest =>
      hit <- searchRegexes firstLine firstLineMatchRegexes ;;
      if hit then ret (set_syntax_file view syntaxFile)
      else scanMappings firstLine rest view
  end.

Definition matchAndSetSyntax (settings : Settings)
  (syntaxMappings : SyntaxMappings) (view : View) : M Ev View :=
  let firstLine := getPartialFirstLine settings view in
  scanMappings firstLine (value syntaxMappings) view.

(** [view.sel()[0]] *)
Definition sel0 (view : View) : result Region :=
  match sel view with
  | [] => Raise IndexError
  | r :: _ => Ok r
  end.

Definition on_modified_async (settings : Settings)
  (syntaxMappings : SyntaxMappings) (view : View) : M Ev View :=
  if negb (List.length (sel view) =? 1)%nat then ret view
  else
    cursor <- lift (sel0 view) ;;
    if (1 <? row view (a cursor))%Z then ret view
    else if negb (String.eqb (strip (scope_name0 view)) "text.plain")
    then ret view
    else matchAndSetSyntax settings syntaxMappings view.

End WithLibraries.
End NewFile.

(* ================================================================= *)
(** * AutoSetSyntax.py *)

Module AutoSet.
Import Py Sublime.
Local Open Scope py_scope.

(** The settings file, as far as this variant reads it.
    [event_listeners] is [None] when the key is not set. *)
Record Settings : Type := mkSettings {
  working_scope : string;
  first_line_length_max : Z;
  event_listeners : option (list (string * bool))
}.

Section WithLibraries.
Context {RE : ReLib}.

Definition Ev : Type := Event Regex.
Definition Entry : Type := (string * list Regex)%type.

(** The module's globals.  [syntaxMappings] stands for what
    [syntaxMappings.value()] returns: the class itself lives in
    [SyntaxMappings.py]. *)
Record Globals : Type := mkGlobals {
  settings : Settings;
  workingScopeRegex : option Regex;
  syntaxMappings : list Entry
}.

Definition set_workingScopeRegex (g : Globals) (r : option Regex) : Globals :=
  mkGlobals (settings g) r (syntaxMappings g).

(** The hook of [settings.add_on_change]: the host stores the new
    settings and then calls the listener. *)
Definition set_settings (g : Globals) (s : Settings) : Globals :=
  mkGlobals s (workingScopeRegex g) (syntaxMappings g).

Definition py_re_compile (p : string) : M Ev Regex :=
  match re_compile p with
  | Some r => ret r
  | None => raise ReError
  end.

Definition workingScopeErrorMessage (workingScope : string) : string :=
  "regex compilation failed in user settings " ++ dquote ++ "working_scope"
  ++ dquote ++ ": " ++ workingScope.

Definition compileWorkingScope (g : Globals) : M Ev Globals :=
  let workingScope := working_scope (settings g) in
  try_except
    (r <- py_re_compile workingScope ;;
     ret (set_workingScopeRegex g (Some r)))
    (let errorMessage := workingScopeErrorMessage workingScope in
     emit (LogError errorMessage) ;;;
     emit (ErrorMessage errorMessage) ;;;
     ret (set_workingScopeRegex g None)).

Fixpoint dict_lookup (event : string) (d : list (string * bool))
  : option bool :=
  match d with
  | [] => None
  | (k, v) :: rest => if String.eqb k event then Some v else dict_lookup event rest
  end.

(** [settings.get('event_listeners', None)[event]] *)
Definition event_listener_flag (g : Globals) (event : string) : result bool :=
  match event_listeners (settings g) with
  | None => Raise TypeError
  | Some d =>
      match dict_lookup event d with
      | Some flag => Ok flag
      | None => Raise KeyError
      end
  end.

Definition isEventListenerEnabled (g : Globals) (event : string) : M Ev bool :=
  try_except
    (lift (event_listener_flag g event))
    (emit (LogWarning (dquote ++ "event_listeners -> " ++ event ++ dquote
                       ++ " is not set in user settings (assumed true)")%string) ;;;
     ret true).

Definition isOnlyOneCursor (view : View) : bool :=
  (List.length (sel view) =? 1)%nat.

Definition isFirstCursorNearBeginning (view : View) : M Ev bool :=
  match sel view with
  | [] => raise IndexError
  | cursor :: _ => ret (row view (a cursor) <? 2)%Z
  end.

Definition isOnWorkingScope (g : Globals) (view : View) : M Ev bool :=
  match workingScopeRegex g with
  | None => ret false
  | Some r =>
      emit (Search r (scope_name0 view)) ;;;
      if negb (re_search r (scope_name0 view)) then ret false else ret true
  end.

(** [x and y] on conditions: [y] is evaluated only when [x] holds. *)
Definition and_then (x y : M Ev bool) : M Ev bool :=
  c <- x ;; if c then y else ret false.

Definition getPartialFirstLine (g : Globals) (view : View) : string :=
  let region := line0 view in
  let firstLineLengthMax := first_line_length_max (settings g) in
  let region :=
    if (0 <=? firstLineLengthMax)%Z
    then mkRegion 0 (Z.min (Region_end region) firstLineLengthMax)
    else region in
  substr view region.

Fixpoint searchRegexes (firstLine : string) (firstLineMatchRegexes : list Regex)
  : M Ev bool :=
  match firstLineMatchRegexes with
  | [] => ret false
  | firstLineMatchRegex :: rest =>
      emit (Search firstLineMatchRegex firstLine) ;;;
      if re_search firstLineMatchRegex firstLine then ret true
      else searchRegexes firstLine rest
  end.

Fixpoint scanMappings (firstLine : string) (mappings : list Entry)
  (view : View) : M Ev View :=
  match mappings with
  | [] => ret view
  | (syntaxFile, firstLineMatchRegexes) :: rest =>
      hit <- searchRegexes firstLine firstLineMatchRegexes ;;
      if hit then ret (set_syntax_file view syntaxFile)
      else scanMappings firstLine rest view
  end.

(** [autoSetSyntaxCommand.run] *)
Definition run (g : Globals) (view : View) : M Ev View :=
  let firstLine := getPartialFirstLine g view in
  scanMappings firstLine (syntaxMappings g) view.

(** [view.run_command(name)]: the host runs the text command of that
    name; [autoSetSyntaxCommand] is registered as [auto_set_syntax]. *)
Definition run_command (g : Globals) (view : View) (name : string)
  : M Ev View :=
  emit (RunCommand name) ;;;
  if String.eqb name "auto_set_syntax" then run g view else ret view.

(** [if cond: view.run_command('auto_set_syntax')] *)
Definition when_run (g : Globals) (view : View) (cond : M Ev bool)
  : M Ev View :=
  c <- cond ;;
  if c then run_command g view "auto_set_syntax" else ret view.

Definition on_activated_async (g : Globals) (view : View) : M Ev View :=
  when_run g view
    (and_then (isEventListenerEnabled g "on_activated_async")
              (isOnWorkingScope g view)).

Definition on_clone_async (g : Globals) (view : View) : M Ev View :=
  when_run g view
    (and_then (isEventListenerEnabled g "on_clone_async")
              (isOnWorkingScope g view)).

Definition on_load_async (g : Globals) (view : View) : M Ev View :=
  when_run g view
    (and_then (isEventListenerEnabled g "on_load_async")
              (isOnWorkingScope g view)).

Definition on_modified_async (g : Globals) (view : View) : M Ev View :=
  when_run g view
    (and_then (isEventListenerEnabled g "on_modified_async")
       (and_then (ret (isOnlyOneCursor view))
          (and_then (isFirstCursorNearBeginning view)
                    (isOnWorkingScope g view)))).

Definition on_new_async (g : Globals) (view : View) : M Ev View :=
  when_run g view
    (and_then (isEventListenerEnabled g "on_new_async")
              (isOnWorkingScope g view)).

Definition on_post_text_command (g : Globals) (view : View)
  (command_name : string) : M Ev View :=
  when_run g view
    (and_then (isOnWorkingScope g view)
       (and_then (isEventListenerEnabled g "on_post_paste")
          (ret (String.eqb command_name "patse"
                || String.eqb command_name "paste_and_indent")))).

Definition on_pre_save_async (g : Globals) (view : View) : M Ev View :=
  when_run g view
    (and_then (isEventListenerEnabled g "on_pre_save_async")
              (isOnWorkingScope g view)).

(** The callbacks the host delivers to the event listener. *)
Inductive HostEvent : Type :=
| Activated
| Cloned
| Loaded
| Modified
| Created
| PostTextCommand (command_name : string)
| PreSave.

Definition deliver (g : Globals) (e : HostEvent) (view : View) : M Ev View :=
  match e with
  | Activated => on_activated_async g view
  | Cloned => on_clone_async g view
  | Loaded => on_load_async g view
  | Modified => on_modified_async g view
  | Created => on_new_async g view
  | PostTextCommand command_name => on_post_text_command g view command_name
  | PreSave => on_pre_save_async g view
  end.

End WithLibraries.
End AutoSet.

(* ================================================================= *)
(** * A small concrete host, to run the embedding on examples

    [Toy.re] reads the fragment of Python's regex syntax made of
    literal characters, [.], a postfix [*] on one character, a leading
    [^] and a trailing [$]; every other pattern is rejected (Python
    rejects some of them, such as a lone opening parenthesis, and reads
    the others in ways this fragment does not cover).
    [Toy.yaml] reads flat documents of [key: value] lines. *)

Module Toy.
Import Py Sublime.

Inductive atom : Type :=
| AChar (c : ascii)
| AAny.

Inductive item : Type :=
| One (x : atom)
| Star (x : atom).

Record regex : Type := mkRegex {
  anchored : bool;
  items : list item;
  to_end : bool
}.

Definition is_meta (c : ascii) : bool :=
  existsb (Ascii.eqb c)
    (list_ascii_of_string ".^$*+?{}[]\|()").

Definition atom_of (c : ascii) : option atom :=
  if Ascii.eqb c "."%char then Some AAny
  else if is_meta c then None
  else Some (AChar c).

Fixpoint parse_items (s : string) : option (list item * bool) :=
  match s with
  | EmptyString => Some ([], false)
  | String c s' =>
      if Ascii.eqb c "$"%char then
        match s' with
        | EmptyString => Some ([], true)
        | _ => None
        end
      else
        match atom_of c with
        | None => None
        | Some x =>
            match s' with
            | String "*"%char s'' =>
                match parse_items s'' with
                | Some (l, e) => Some (Star x :: l, e)
                | None => None
                end
            | _ =>
                match parse_items s' with
                | Some (l, e) => Some (One x :: l, e)
                | None => None
                end
            end
        end
  end.

Definition compile (p : string) : option regex :=
  match p with
  | String "^"%char p' =>
      match parse_items p' with
      | Some (l, e) => Some (mkRegex true l e)
      | None => None
      end
  | _ =>
      match parse_items p with
      | Some (l, e) => Some (mkRegex false l e)
      | None => None
      end
  end.

Definition atom_ok (x : atom) (c : ascii) : bool :=
  match x with
  | AChar d => Ascii.eqb c d
  | AAny => negb (Ascii.eqb c (ascii_of_nat 10))
  end.

Definition at_end (s : string) : bool :=
  String.eqb s EmptyString || String.eqb s nl.

Fixpoint match_here (e : bool) (l : list item) (s : string) : bool :=
  match l with
  | [] => if e then at_end s else true
  | One x :: l' =>
      match s with
      | EmptyString => false
      | String c s' => atom_ok x c && match_here e l' s'
      end
  | Star x :: l' =>
      (fix star (t : string) : bool :=
         match_here e l' t
         || match t with
            | EmptyString => false
            | String c t' => atom_ok x c && star t'
            end) s
  end.

Fixpoint match_anywhere (e : bool) (l : list item) (s : string) : bool :=
  match_here e l s
  || match s with
     | EmptyString => false
     | String _ s' => match_anywhere e l s'
     end.

Definition search (r : regex) (s : string) : bool :=
  if anchored r then match_here (to_end r) (items r) s
  else match_anywhere (to_end r) (items r) s.

Definition re : ReLib := Build_ReLib regex compile search.

(** The lines of a text. *)
Fixpoint lines_acc (s cur : string) : list string :=
  match s with
  | EmptyString => [cur]
  | String c s' =>
      if Ascii.eqb c (ascii_of_nat 10) then cur :: lines_acc s' EmptyString
      else lines_acc s' (cur ++ String c EmptyString)%string
  end.

Definition lines (s : string) : list string := lines_acc s EmptyString.

Definition unquote (v : string) : PyVal :=
  match v with
  | EmptyString => PNone
  | String "'"%char rest =>
      match find_from "'" rest 0 with
      | Some n => PStr (String.substring 0 n rest)
      | None => PStr v
      end
  | _ => PStr v
  end.

(** One line of a flat document: skipped ([Ok None]), a pair, or an
    error (an opened and never closed flow sequence, or a line that is
    no pair). *)
Definition parse_line (l : string) : result (option (PyVal * PyVal)) :=
  let l := strip l in
  if String.eqb l EmptyString || String.prefix "%" l || String.prefix "#" l
     || String.eqb l "---" then Ok None
  else
    match find_from ":" l 0 with
    | None => Raise YAMLError
    | Some n =>
        let k := strip (String.substring 0 n l) in
        let v := strip (String.substring (S n) (String.length l - S n) l) in
        if String.prefix "[" v && negb (contains v "]") then Raise YAMLError
        else Ok (Some (PStr k, unquote v))
    end.

Fixpoint parse_lines (ls : list string) : result (list (PyVal * PyVal)) :=
  match ls with
  | [] => Ok []
  | l :: rest =>
      match parse_line l with
      | Raise e => Raise e
      | Ok None => parse_lines rest
      | Ok (Some kv) =>
          match parse_lines rest with
          | Raise e => Raise e
          | Ok items => Ok (kv :: items)
          end
      end
  end.

(** A document without any pair (directives and comments only) is
    empty: the parser returns [None] for it. *)
Definition load (content : string) : result PyVal :=
  match parse_lines (lines content) with
  | Raise e => Raise e
  | Ok [] => Ok PNone
  | Ok items => Ok (PDict items)
  end.

Definition yaml : YamlLib := Build_YamlLib load (fun _ => "<container>").

(** Installed packages: resource paths with their contents. *)
Definition ends_with (s suffix : string) : bool :=
  let n := String.length s in
  let m := String.length suffix in
  (m <=? n)%nat && String.eqb (String.substring (n - m) m s) suffix.

Definition resources (files : list (string * string)) : Resources :=
  mkResources
    (fun pattern =>
       let ext := slice_from pattern 1 in
       map fst (filter (fun f => ends_with (fst f) ext) files))
    (fun name =>
       match List.find (fun f => String.eqb (fst f) name) files with
       | Some f => snd f
       | None => EmptyString
       end).

End Toy.

(* ================================================================= *)
(** * Notions the properties are stated with *)

Module Spec.
Import Py Sublime.

(** The first line of a text: what stands before its first newline. *)
Fixpoint first_line (s : string) : string :=
  match s with
  | EmptyString => EmptyString
  | String c s' =>
      if Ascii.eqb c (ascii_of_nat 10) then EmptyString
      else String c (first_line s')
  end.

(** The first [n] characters of [s] (all of [s] when it is shorter). *)
Definition take (n : nat) (s : string) : string := String.substring 0 n s.

(** [sub] occurs in [s] at offset [n]. *)
Definition occurs_at (sub s : string) (n : nat) : Prop :=
  exists pre post, s = (pre ++ sub ++ post)%string /\ String.length pre = n.

Definition occurs (sub s : string) : Prop := exists n, occurs_at sub s n.

(** [t] is [content] cut at the first occurrence of [marker]: the text
    before that occurrence, or all of [content] when there is none. *)
Definition cut_at_first (marker content t : string) : Prop :=
  (exists post,
      content = (t ++ marker ++ post)%string /\
      forall m, m < String.length t -> ~ occurs_at marker content m)
  \/ (t = content /\ ~ occurs marker content).

Definition all_space (s : string) : bool :=
  forallb isspace (list_ascii_of_string s).

(** The string [used] for matching, given the first line [line] and the
    setting [first_line_length_max = N]. *)
Definition partial_first_line (N : Z) (line used : string) : Prop :=
  ((0 <= N)%Z -> (N < Z.of_nat (String.length line))%Z ->
   used = take (Z.to_nat N) line /\ Z.of_nat (String.length used) = N)
  /\ ((0 <= N)%Z -> (Z.of_nat (String.length line) <= N)%Z -> used = line)
  /\ ((N < 0)%Z -> used = line).

Section WithLibraries.
Context {RE : ReLib}.

Definition Entry : Type := (string * list Regex)%type.

(** A regex of the entry is found in [line]. *)
Definition entry_matches (line : string) (e : Entry) : bool :=
  existsb (fun r => re_search r line) (snd e).

(** The searches of the regexes [rs] in [line], in order. *)
Definition searches (line : string) (rs : list Regex) : list (Event Regex) :=
  map (fun r => Search r line) rs.

(** The first-match scan, as the specification words it: the outcome
    [out] of scanning [mappings] for [line] on [view]. *)
Definition first_match_scan (line : string) (mappings : list Entry)
  (view : View) (out : M (Event Regex) View) : Prop :=
  (forall pre syntaxFile rs1 r rs2 post,
      mappings = pre ++ (syntaxFile, rs1 ++ r :: rs2) :: post ->
      (forall e, In e pre -> entry_matches line e = false) ->
      (forall q, In q rs1 -> re_search q line = false) ->
      re_search r line = true ->
      out = (Ok (set_syntax_file view syntaxFile),
             searches line (flat_map snd pre ++ rs1 ++ [r])))
  /\
  ((forall e, In e mappings -> entry_matches line e = false) ->
   out = (Ok view, searches line (flat_map snd mappings))).

(** The strings of [patterns] that compile, compiled, in order. *)
Fixpoint compiled (patterns : list string) : list Regex :=
  match patterns with
  | [] => []
  | p :: rest =>
      match re_compile p with
      | Some r => r :: compiled rest
      | None => compiled rest
      end
  end.

(** The user-defined entries, in configuration order: an item with its
    compiled patterns, unless none compiles. *)
Fixpoint user_entries (items : list (string * list string)) : list Entry :=
  match items with
  | [] => []
  | (syntaxFile, patterns) :: rest =>
      match compiled patterns with
      | [] => user_entries rest
      | rs => (syntaxFile, rs) :: user_entries rest
      end
  end.

(** No command was run in the course of [tr]. *)
Definition no_command (tr : list (Event Regex)) : Prop :=
  forall name, ~ In (RunCommand name) tr.

Context {YAML : YamlLib}.

(** The host-discovered entries, in discovery order: a resource with
    the one regex compiled from its extracted pattern, when there is a
    pattern and it compiles. *)
Fixpoint host_entries (res : Resources) (files : list string) : list Entry :=
  match files with
  | [] => []
  | f :: rest =>
      match NewFile.findFirstLineMatch (load_resource res f) with
      | (Ok (PStr pattern), _) =>
          match re_compile pattern with
          | Some r => (f, [r]) :: host_entries res rest
          | None => host_entries res rest
          end
      | _ => host_entries res rest
      end
  end.

(** [self] is a mapping table of the running plugin whose last build
    read [settings]: made by the constructor, or by a rebuild that the
    host's change notification started. *)
Inductive built (res : Resources)
  : NewFile.Settings -> NewFile.SyntaxMappings -> Prop :=
| built_init settings self tr :
    NewFile.init res settings = (Ok self, tr) ->
    built res settings self
| built_rebuild settings0 self0 settings self tr :
    built res settings0 self0 ->
    NewFile.rebuildSyntaxMappings settings self0 = (Ok self, tr) ->
    built res settings self.

(** User precedence, in the words of the specification: whenever the
    line matches a user mapping [U] and a host-discovered mapping [H],
    the applied syntax is [U]'s. *)
Definition user_precedence_as_stated : Prop :=
  forall res settings self view U H,
    built res settings self ->
    In U (user_entries (NewFile.syntax_mapping settings)) ->
    In H (NewFile.syntaxMappingsSt self) ->
    entry_matches (NewFile.getPartialFirstLine settings view) U = true ->
    entry_matches (NewFile.getPartialFirstLine settings view) H = true ->
    exists view' tr,
      NewFile.matchAndSetSyntax settings self view = (Ok view', tr) /\
      syntax_file view' = fst U.

(** The policy on a parse failure, in the words of the specification:
    the resource is skipped and the build of the host-discovered list
    completes. *)
Definition parse_failure_skipped_as_stated : Prop :=
  forall res syntaxFile tr,
    In syntaxFile (NewFile.findSyntaxResources res true) ->
    NewFile.findFirstLineMatch (load_resource res syntaxFile)
      = (Raise YAMLError, tr) ->
    exists st tr', NewFile.buildSyntaxMappingsFromSt res = (Ok st, tr').


(** The paste gate, in the words of the specification. *)
Definition is_paste_command (command_name : string) : bool :=
  String.eqb command_name "paste"
  || String.eqb command_name "paste_and_indent".

End WithLibraries.
End Spec.

(* ================================================================= *)
(** * Sample packages, settings and views, on the small host *)

Module Samples.
Import Py Sublime Toy.

Definition ruby_syntax : string :=
  "%YAML 1.2" ++ nl ++ "---" ++ nl ++ "name: Ruby" ++ nl
  ++ "first_line_match: '^#!.*ruby'" ++ nl
  ++ "contexts:" ++ nl ++ "  main: []" ++ nl.

(** The declaration stands after the [contexts:] marker. *)
Definition late_syntax : string :=
  "%YAML 1.2" ++ nl ++ "---" ++ nl ++ "name: Late" ++ nl
  ++ "contexts:" ++ nl ++ "  first_line_match: '^#!.*ruby'" ++ nl.


(** A flow sequence is opened and never closed. *)
Definition broken_syntax : string :=
  "%YAML 1.2" ++ nl ++ "---" ++ nl ++ "name: Broken" ++ nl
  ++ "first_line_match: [" ++ nl.

Definition shell_tmLanguage : string :=
  "<plist><dict><key>firstLineMatch</key>" ++ nl
  ++ "<string>^#!.*sh</string></dict></plist>".

Definition packages : Resources :=
  Toy.resources [("Packages/Ruby/Ruby.sublime-syntax", ruby_syntax);
             ("Packages/ShellScript/Shell.tmLanguage", shell_tmLanguage)].

Definition packages_with_broken : Resources :=
  Toy.resources [("Packages/Broken/Broken.sublime-syntax", broken_syntax);
             ("Packages/Ruby/Ruby.sublime-syntax", ruby_syntax)].

Definition user_settings : NewFile.Settings :=
  NewFile.mkSettings
    [("Packages/User/A.sublime-syntax", ["^#!"; "("]);
     ("Packages/User/Dead.sublime-syntax", ["["]);
     ("Packages/User/B.sublime-syntax", ["ruby"; "python"])]
    (-1).

Definition ruby_script : View :=
  mkView ("#!/usr/bin/ruby" ++ nl ++ "puts 1" ++ nl)
         [mkRegion 0 0] "text.plain " "Packages/Text/Plain text.tmLanguage".

Definition table_of (m : M (Event regex) (NewFile.SyntaxMappings (RE := re)))
  : NewFile.SyntaxMappings (RE := re) :=
  match m with
  | (Ok self, _) => self
  | (Raise _, _) => NewFile.mkSyntaxMappings [] []
  end.

Definition user_table : NewFile.SyntaxMappings (RE := re) :=
  Eval vm_compute in
    table_of (NewFile.init (RE := re) (YAML := yaml) packages user_settings).

Definition entry_A : Spec.Entry (RE := re) :=
  Eval vm_compute in
    nth 0 (NewFile.value user_table) (EmptyString, []).

Definition entry_B : Spec.Entry (RE := re) :=
  Eval vm_compute in
    nth 1 (NewFile.value user_table) (EmptyString, []).

Definition entry_Ruby : Spec.Entry (RE := re) :=
  Eval vm_compute in
    nth 2 (NewFile.value user_table) (EmptyString, []).

Definition plain_regex : Toy.regex :=
  Eval vm_compute in
    match Toy.compile "plain" with
    | Some r => r
    | None => Toy.mkRegex false [] false
    end.

(** The globals of [AutoSetSyntax.py] once [plugin_loaded] has run
    [compileWorkingScope]. *)
Definition loaded (working_scope : string)
  (flags : option (list (string * bool))) : AutoSet.Globals (RE := re) :=
  let g := AutoSet.mkGlobals (AutoSet.mkSettings working_scope (-1) flags)
             None (NewFile.value user_table) in
  match AutoSet.compileWorkingScope g with
  | (Ok g', _) => g'
  | (Raise _, _) => g
  end.

Definition all_enabled : option (list (string * bool)) :=
  Some [("on_activated_async", true); ("on_clone_async", true);
        ("on_load_async", true); ("on_modified_async", true);
        ("on_new_async", true); ("on_post_paste", true);
        ("on_pre_save_async", true)].

End Samples.

(* ================================================================= *)
(** * Notions for the rest of the two files *)

Module Terms.
Import Py Sublime.

(** The path of a resource without its extension: the key under which
    [findSyntaxResources] files it in [syntaxGriddle]. *)
Definition resource_name (p : string) : string := fst (OsPath.splitext p).

(** All syntax resources of the host, the extension of highest priority
    first. *)
Definition found (res : Resources) : list string :=
  find_resources res "*.sublime-syntax" ++ find_resources res "*.tmLanguage".

(** No character of [s] is [c]. *)
Definition lacks_char (c : ascii) (s : string) : bool :=
  forallb (fun d => negb (Ascii.eqb d c)) (list_ascii_of_string s).

(** The guards of [on_modified_async] in [AutoSetNewFileSyntax.py]. *)
Definition new_file_guards (view : View) : bool :=
  match sel view with
  | [cursor] =>
      (row view (a cursor) <=? 1)%Z
      && String.eqb (strip (scope_name0 view)) "text.plain"
  | _ => false
  end.

Section WithLibraries.
Context {RE : ReLib}.

Definition compile_fails (p : string) : bool :=
  match re_compile p with
  | Some _ => false
  | None => true
  end.

(** The message logged for pattern [p] of the user item [syntaxFile]. *)
Definition user_error (syntaxFile p : string) : string :=
  "regex compilation failed in user settings " ++ syntaxFile ++ ": " ++ p.

(** The messages for the patterns of the user items that do not
    compile, in configuration order. *)
Definition user_errors (items : list (string * list string)) : list string :=
  flat_map
    (fun item => map (user_error (fst item)) (filter compile_fails (snd item)))
    items.

(** The key of [event_listeners] that a handler reads. *)
Definition toggle_key (e : AutoSet.HostEvent) : string :=
  match e with
  | AutoSet.Activated => "on_activated_async"
  | AutoSet.Cloned => "on_clone_async"
  | AutoSet.Loaded => "on_load_async"
  | AutoSet.Modified => "on_modified_async"
  | AutoSet.Created => "on_new_async"
  | AutoSet.PostTextCommand _ => "on_post_paste"
  | AutoSet.PreSave => "on_pre_save_async"
  end.

(** The toggle of [key] is not set to [False]. *)
Definition toggle_on (g : AutoSet.Globals) (key : string) : bool :=
  match AutoSet.event_listener_flag g key with
  | Ok false => false
  | _ => true
  end.

(** The working-scope filter is set and found in the scope of the view. *)
Definition on_scope (g : AutoSet.Globals) (view : View) : bool :=
  match AutoSet.workingScopeRegex g with
  | Some r => re_search r (scope_name0 view)
  | None => false
  end.

(** One cursor, on one of the first two rows. *)
Definition cursor_near_beginning (view : View) : bool :=
  match sel view with
  | [cursor] => (row view (a cursor) <? 2)%Z
  | _ => false
  end.

(** All the guards of the handler of [e]. *)
Definition gate_open (g : AutoSet.Globals) (e : AutoSet.HostEvent)
  (view : View) : bool :=
  on_scope g view && toggle_on g (toggle_key e)
  && match e with
     | AutoSet.Modified => cursor_near_beginning view
     | AutoSet.PostTextCommand command_name =>
         String.eqb command_name "patse"
         || String.eqb command_name "paste_and_indent"
     | _ => true
     end.

(** [settings.get('syntax_mapping').items()]: the items when the key
    is set to a mapping from syntax files to lists of pattern strings;
    for a key that is unset or null [settings.get] returns [None], and
    [None.items()] raises. *)
Definition items_of (value : option (list (string * list string)))
  : result (list (string * list string)) :=
  match value with
  | Some items => Ok items
  | None => Raise AttributeError
  end.

(** [buildSyntaxMappingsFromUser], [rebuildSyntaxMappings] and
    [__init__] of [class SyntaxMappings], told what
    [settings.get('syntax_mapping')] returns. *)
Definition buildFromUser (value : option (list (string * list string)))
  : M (Event Regex) (list Spec.Entry) :=
  Py.bind (lift (items_of value))
    (fun items => for_each items NewFile.addUserMapping []).

Definition rebuild (value : option (list (string * list string)))
  (self : NewFile.SyntaxMappings) : M (Event Regex) NewFile.SyntaxMappings :=
  Py.bind (buildFromUser value)
    (fun user =>
       ret (NewFile.mkSyntaxMappings
              (user ++ NewFile.syntaxMappingsSt self)
              (NewFile.syntaxMappingsSt self))).

Definition construct {YAML : YamlLib} (res : Resources)
  (value : option (list (string * list string)))
  : M (Event Regex) NewFile.SyntaxMappings :=
  Py.bind (NewFile.buildSyntaxMappingsFromSt res)
    (fun st => rebuild value (NewFile.mkSyntaxMappings [] st)).

End WithLibraries.

(** ** More samples *)

Definition java_packages : Resources :=
  Toy.resources [("Packages/Java/Java.tmLanguage", EmptyString);
                 ("Packages/Java/Java.sublime-syntax", EmptyString);
                 ("Packages/C/C.tmLanguage", EmptyString)].

Definition php_tmLanguage : string :=
  "<plist><dict><key>fileTypes</key><array/>" ++ nl
  ++ "<key>firstLineMatch</key>" ++ nl ++ "  <string>^#!.*php</string>"
  ++ nl ++ "</dict></plist>".

End Terms.

(* ================================================================= *)
(** * Facts about the string primitives *)

Section StringFacts.
Import Py Sublime Spec.

Lemma string_app_length (s t : string) :
  String.length (s ++ t) = String.length s + String.length t.
Proof. induction s as [|c s IH]; simpl; [reflexivity | now rewrite IH]. Qed.

Lemma string_app_assoc (s t u : string) : ((s ++ t) ++ u = s ++ (t ++ u))%string.
Proof. induction s as [|c s IH]; simpl; [reflexivity | now rewrite IH]. Qed.

Lemma prefix_spec (p s : string) :
  String.prefix p s = true <-> exists post, s = (p ++ post)%string.
Proof.
  revert p; induction s as [|d s IH]; intros [|c p]; simpl.
  - split; [intros _; now exists EmptyString | reflexivity].
  - split; [discriminate | intros [post H]; discriminate].
  - split; [intros _; now exists (String d s) | reflexivity].
  - destruct (ascii_dec c d) as [->|Hne].
    + rewrite IH. split; intros [post H]; exists post.
      * now rewrite H.
      * now inversion H.
    + split; [discriminate | intros [post H]; inversion H; congruence].
Qed.

Lemma occurs_at_0 (sub s : string) :
  occurs_at sub s 0 <-> String.prefix sub s = true.
Proof.
  rewrite prefix_spec. split.
  - intros (pre & post & -> & Hlen).
    destruct pre; [now exists post | discriminate].
  - intros [post ->]. now exists EmptyString, post.
Qed.

Lemma occurs_at_S (sub : string) (c : ascii) (s : string) (n : nat) :
  occurs_at sub (String c s) (S n) <-> occurs_at sub s n.
Proof.
  split.
  - intros (pre & post & H & Hlen).
    destruct pre as [|d pre]; [discriminate|].
    simpl in H, Hlen. inversion H; subst. now exists pre, post; split; [|lia].
  - intros (pre & post & -> & Hlen).
    exists (String c pre), post. simpl. now rewrite Hlen.
Qed.

Lemma occurs_at_empty (sub : string) (n : nat) :
  occurs_at sub EmptyString (S n) -> False.
Proof. intros (pre & post & H & Hlen). destruct pre; discriminate. Qed.

Lemma find_from_eq (sub s : string) (i : nat) :
  find_from sub s i =
  if String.prefix sub s then Some i
  else match s with
       | EmptyString => None
       | String _ s' => find_from sub s' (S i)
       end.
Proof. destruct s; reflexivity. Qed.

(** [find_from] returns the lowest offset of an occurrence. *)
Lemma find_from_some (sub s : string) (i k : nat) :
  find_from sub s i = Some k ->
  i <= k /\ occurs_at sub s (k - i) /\
  forall m, m < k - i -> ~ occurs_at sub s m.
Proof.
  revert i; induction s as [|c s IH]; intros i; rewrite find_from_eq.
  - destruct (String.prefix sub EmptyString) eqn:Hp; intros H; [|discriminate].
    injection H as <-. rewrite Nat.sub_diag.
    repeat split; [lia | now apply occurs_at_0 | intros m Hm; lia].
  - destruct (String.prefix sub (String c s)) eqn:Hp; intros H.
    + injection H as <-. rewrite Nat.sub_diag.
      repeat split; [lia | now apply occurs_at_0 | intros m Hm; lia].
    + destruct (IH _ H) as (Hle & Hocc & Hmin).
      replace (k - i) with (S (k - S i)) by lia.
      repeat split; [lia | now apply occurs_at_S |].
      intros [|m] Hm Hm'.
      * apply occurs_at_0 in Hm'. congruence.
      * apply occurs_at_S in Hm'. apply (Hmin m); [lia | assumption].
Qed.

Lemma find_from_none (sub s : string) (i : nat) :
  find_from sub s i = None -> ~ occurs sub s.
Proof.
  revert i; induction s as [|c s IH]; intros i; rewrite find_from_eq.
  - destruct (String.prefix sub EmptyString) eqn:Hp; intros H; [discriminate|].
    intros [[|m] Hm].
    + apply occurs_at_0 in Hm. congruence.
    + now apply occurs_at_empty in Hm.
  - destruct (String.prefix sub (String c s)) eqn:Hp; intros H; [discriminate|].
    intros [[|m] Hm].
    + apply occurs_at_0 in Hm. congruence.
    + apply occurs_at_S in Hm. apply (IH _ H). now exists m.
Qed.

Lemma find_nonneg (s sub : string) :
  (find s sub =? -1)%Z = false ->
  exists k, find_from sub s 0 = Some k /\ find s sub = Z.of_nat k.
Proof.
  unfold find. destruct (find_from sub s 0) as [k|].
  - intros _. now exists k.
  - now rewrite Z.eqb_refl.
Qed.

Lemma find_absent (s sub : string) :
  (find s sub =? -1)%Z = true -> find_from sub s 0 = None.
Proof.
  unfold find. destruct (find_from sub s 0) as [k|]; [|reflexivity].
  intros H. apply Z.eqb_eq in H. lia.
Qed.

Lemma substring_0_app (pre post : string) :
  String.substring 0 (String.length pre) (pre ++ post) = pre.
Proof. induction pre as [|c pre IH]; simpl; [now destruct post | now rewrite IH]. Qed.

Lemma substring_0_min (k : nat) (s : string) :
  String.substring 0 (Nat.min (String.length s) k) s = String.substring 0 k s.
Proof.
  revert k; induction s as [|c s IH]; intros [|k]; simpl; try reflexivity.
  now rewrite IH.
Qed.

Lemma substring_0_all (k : nat) (s : string) :
  String.length s <= k -> String.substring 0 k s = s.
Proof.
  revert k; induction s as [|c s IH]; intros [|k] H; simpl in *;
    try reflexivity; try lia.
  rewrite IH; [reflexivity | lia].
Qed.

Lemma substring_0_length (k : nat) (s : string) :
  k <= String.length s -> String.length (String.substring 0 k s) = k.
Proof.
  revert k; induction s as [|c s IH]; intros [|k] H; simpl in *;
    try reflexivity; try lia.
  rewrite IH; [reflexivity | lia].
Qed.

(** [s[0:n]] for an [n] that is not negative. *)
Lemma slice_0 (s : string) (n : Z) :
  (0 <= n)%Z -> slice s 0 n = String.substring 0 (Z.to_nat n) s.
Proof.
  intros Hn. unfold slice, slice_index.
  destruct (Z.ltb_spec n 0) as [H|_]; [lia|]. simpl.
  rewrite Nat.min_0_r, Nat.sub_0_r. apply substring_0_min.
Qed.

Lemma first_line_length (s : string) :
  String.length (first_line s) = eol s.
Proof.
  induction s as [|c s IH]; simpl; [reflexivity|].
  destruct (Ascii.eqb c (ascii_of_nat 10)); simpl; [reflexivity | now rewrite IH].
Qed.

Lemma take_first_line (k : nat) (s : string) :
  k <= eol s -> String.substring 0 k s = take k (first_line s).
Proof.
  unfold take. revert k; induction s as [|c s IH]; intros [|k] H; simpl in *;
    try reflexivity; try lia.
  - now destruct (Ascii.eqb c (ascii_of_nat 10)).
  - destruct (Ascii.eqb c (ascii_of_nat 10)); [lia|].
    simpl. rewrite IH; [reflexivity | lia].
Qed.

Lemma lstrip_all_space (s : string) :
  all_space s = true -> lstrip s = EmptyString.
Proof.
  unfold all_space. induction s as [|c s IH]; simpl; [reflexivity|].
  intros H. apply andb_true_iff in H as [Hc Hs]. rewrite Hc. now apply IH.
Qed.

Lemma strip_all_space (s : string) :
  all_space s = true -> strip s = EmptyString.
Proof. intros H. unfold strip. now rewrite lstrip_all_space. Qed.

End StringFacts.

(* ================================================================= *)
(** * The string used for matching *)

Section PartialFirstLine.
Import Py Sublime Spec.

Lemma substr_region0 (view : View) (e : Z) :
  (0 <= e)%Z ->
  substr view (mkRegion 0 e) = String.substring 0 (Z.to_nat e) (buffer view).
Proof.
  intros He. unfold substr, Region_begin, Region_end. simpl.
  replace (Z.max 0 (Z.min 0 e)) with 0%Z by lia.
  replace (Z.max 0 (Z.max 0 e)) with e by lia.
  now apply slice_0.
Qed.

Lemma substr_line0 (view : View) :
  substr view (line0 view) = first_line (buffer view).
Proof.
  unfold line0. rewrite substr_region0, Nat2Z.id by lia.
  rewrite take_first_line by lia. unfold take.
  apply substring_0_all. now rewrite first_line_length.
Qed.

Lemma substr_bounded (view : View) (N : Z) :
  (0 <= N)%Z ->
  substr view (mkRegion 0 (Z.min (Region_end (line0 view)) N))
  = take (Z.to_nat N) (first_line (buffer view)).
Proof.
  intros HN. unfold line0, Region_end. simpl.
  set (e := eol (buffer view)).
  replace (Z.max 0 (Z.of_nat e)) with (Z.of_nat e) by lia.
  rewrite substr_region0 by lia.
  destruct (Z.le_ge_cases (Z.of_nat e) N) as [H|H].
  - rewrite Z.min_l, Nat2Z.id by lia.
    rewrite take_first_line by (subst e; lia). unfold take.
    rewrite !substring_0_all; try reflexivity;
      rewrite first_line_length; subst e; lia.
  - rewrite Z.min_r by lia. apply take_first_line. subst e. lia.
Qed.

Lemma partial_first_line_of (view : View) (N : Z) :
  partial_first_line N (first_line (buffer view))
    (substr view
       (if (0 <=? N)%Z
        then mkRegion 0 (Z.min (Region_end (line0 view)) N)
        else line0 view)).
Proof.
  unfold partial_first_line.
  destruct (Z.leb_spec 0 N) as [HN|HN].
  - rewrite substr_bounded by assumption. repeat split; try lia.
    + unfold take. rewrite substring_0_length; lia.
    + intros _ Hlen. apply substring_0_all. lia.
  - rewrite substr_line0. repeat split; intros; try lia; reflexivity.
Qed.

(** C3.  With [first_line_length_max = N], both variants match against
    the first [N] characters of the first line when [N >= 0] and the
    line is longer than [N], against the whole first line when [N >= 0]
    and the line is not longer, and against the whole first line when
    [N < 0]. *)
Theorem C3_partial_first_line {RE : ReLib} :
  forall (settings : NewFile.Settings) (g : AutoSet.Globals) (view : View),
    partial_first_line (NewFile.first_line_length_max settings)
      (first_line (buffer view))
      (NewFile.getPartialFirstLine settings view)
    /\
    partial_first_line (AutoSet.first_line_length_max (AutoSet.settings g))
      (first_line (buffer view))
      (AutoSet.getPartialFirstLine g view).
Proof.
  intros settings g view. split; apply partial_first_line_of.
Qed.

End PartialFirstLine.

(* ================================================================= *)
(** * The first-match scan *)

Section Scan.
Import Py Sublime Spec.
Context {RE : ReLib}.

Lemma entry_misses (line : string) (e : Entry) :
  entry_matches line e = false <->
  forall q, In q (snd e) -> re_search q line = false.
Proof.
  unfold entry_matches. induction (snd e) as [|r rs IH]; simpl.
  - split; [intros _ q [] | reflexivity].
  - rewrite orb_false_iff, IH. split.
    + intros [Hr Hrs] q [<-|Hq]; [assumption | now apply Hrs].
    + intros H. split; [apply H; now left | intros q Hq; apply H; now right].
Qed.

Lemma searchRegexes_miss (line : string) (rs : list Regex) :
  (forall q, In q rs -> re_search q line = false) ->
  NewFile.searchRegexes line rs = (Ok false, searches line rs).
Proof.
  induction rs as [|r rs IH]; intros H; simpl; [reflexivity|].
  rewrite (H r) by now left.
  rewrite IH by (intros q Hq; apply H; now right). reflexivity.
Qed.

Lemma searchRegexes_hit (line : string) (rs1 rs2 : list Regex) (r : Regex) :
  (forall q, In q rs1 -> re_search q line = false) ->
  re_search r line = true ->
  NewFile.searchRegexes line (rs1 ++ r :: rs2)
  = (Ok true, searches line (rs1 ++ [r])).
Proof.
  intros Hmiss Hhit. induction rs1 as [|q rs1 IH]; simpl.
  - now rewrite Hhit.
  - rewrite (Hmiss q) by now left.
    rewrite IH by (intros q' Hq'; apply Hmiss; now right). reflexivity.
Qed.

Lemma searches_app (line : string) (rs1 rs2 : list Regex) :
  searches line (rs1 ++ rs2) = searches line rs1 ++ searches line rs2.
Proof. apply map_app. Qed.

Lemma scanMappings_miss (line : string) (mappings : list Entry) (view : View) :
  (forall e, In e mappings -> entry_matches line e = false) ->
  NewFile.scanMappings line mappings view
  = (Ok view, searches line (flat_map snd mappings)).
Proof.
  induction mappings as [|[f rs] rest IH]; intros H; simpl; [reflexivity|].
  rewrite searchRegexes_miss
    by (apply (entry_misses line (f, rs)); apply H; now left).
  simpl. rewrite IH by (intros e He; apply H; now right).
  now rewrite searches_app.
Qed.

Lemma scanMappings_hit (line : string) (pre post : list Entry)
  (syntaxFile : string) (rs1 rs2 : list Regex) (r : Regex) (view : View) :
  (forall e, In e pre -> entry_matches line e = false) ->
  (forall q, In q rs1 -> re_search q line = false) ->
  re_search r line = true ->
  NewFile.scanMappings line (pre ++ (syntaxFile, rs1 ++ r :: rs2) :: post) view
  = (Ok (set_syntax_file view syntaxFile),
     searches line (flat_map snd pre ++ rs1 ++ [r])).
Proof.
  intros Hpre Hrs1 Hr. induction pre as [|[f rs] pre IH]; simpl.
  - rewrite searchRegexes_hit by assumption. simpl.
    now rewrite app_nil_r.
  - rewrite searchRegexes_miss
      by (apply (entry_misses line (f, rs)); apply Hpre; now left).
    simpl. rewrite IH by (intros e He; apply Hpre; now right).
    now rewrite <- app_assoc, !searches_app.
Qed.

Lemma scanMappings_first_match (line : string) (mappings : list Entry)
  (view : View) :
  first_match_scan line mappings view (NewFile.scanMappings line mappings view).
Proof.
  split.
  - intros pre syntaxFile rs1 r rs2 post -> Hpre Hrs1 Hr.
    now apply scanMappings_hit.
  - apply scanMappings_miss.
Qed.

(** The two variants run the same scan. *)
Lemma scanMappings_same (line : string) (mappings : list Entry) (view : View) :
  AutoSet.scanMappings line mappings view
  = NewFile.scanMappings line mappings view.
Proof. reflexivity. Qed.

(** C1.  The Syntax Applier of either variant scans the entries in table
    order and the patterns of an entry in order; at the first pattern
    found in the (possibly truncated) first line it sets the view's
    syntax to that entry's identifier, having searched exactly the
    patterns up to that one; when no pattern is found the view is left
    as it was. *)
Theorem C1_first_match_wins :
  forall (g : AutoSet.Globals) (settings : NewFile.Settings)
         (self : NewFile.SyntaxMappings) (view : View),
    first_match_scan (AutoSet.getPartialFirstLine g view)
      (AutoSet.syntaxMappings g) view (AutoSet.run g view)
    /\
    first_match_scan (NewFile.getPartialFirstLine settings view)
      (NewFile.value self) view
      (NewFile.matchAndSetSyntax settings self view).
Proof.
  intros g settings self view. split.
  - unfold AutoSet.run. rewrite scanMappings_same.
    apply scanMappings_first_match.
  - apply scanMappings_first_match.
Qed.

End Scan.

(* ================================================================= *)
(** * Building the mapping table *)

Section Build.
Import Py Sublime Spec.
Context {RE : ReLib} {YAML : YamlLib}.

Lemma for_each_app {E A S} (xs ys : list A) (body : A -> S -> M E S) (s : S) :
  for_each (xs ++ ys) body s = bind (for_each xs body s) (for_each ys body).
Proof.
  revert s; induction xs as [|x xs IH]; intros s; simpl.
  - destruct (for_each ys body s) as [r t]. reflexivity.
  - destruct (body x s) as [[s'|e] t]; simpl; [|reflexivity].
    rewrite IH. destruct (for_each xs body s') as [[s''|e] t']; simpl.
    + destruct (for_each ys body s'') as [r t'']. now rewrite app_assoc.
    + reflexivity.
Qed.

(** ** The user-defined part *)

Lemma compile_step (syntaxFile p : string) (acc : list Regex) :
  exists tr,
    try_except
      (bind (NewFile.py_re_compile (PStr p)) (fun r => ret (acc ++ [r])))
      (bind (emit (LogError ("regex compilation failed in user settings "
                             ++ syntaxFile ++ ": " ++ p)%string))
            (fun _ => ret acc))
    = (Ok (acc ++ compiled [p]), tr).
Proof.
  unfold NewFile.py_re_compile. simpl.
  destruct (re_compile p) as [r|]; simpl; eexists.
  - reflexivity.
  - now rewrite !app_nil_r.
Qed.

Lemma compiled_cons (p : string) (ps : list string) :
  compiled (p :: ps) = compiled [p] ++ compiled ps.
Proof. simpl. now destruct (re_compile p). Qed.

Lemma compile_loop (syntaxFile : string) (ps : list string) (acc : list Regex) :
  exists tr,
    for_each ps
      (fun firstLineMatch firstLineMatchRegexes =>
         try_except
           (bind (NewFile.py_re_compile (PStr firstLineMatch))
                 (fun r => ret (firstLineMatchRegexes ++ [r])))
           (bind (emit (LogError ("regex compilation failed in user settings "
                                  ++ syntaxFile ++ ": " ++ firstLineMatch)%string))
                 (fun _ => ret firstLineMatchRegexes)))
      acc
    = (Ok (acc ++ compiled ps), tr).
Proof.
  revert acc; induction ps as [|p ps IH]; intros acc.
  - exists []. simpl. now rewrite !app_nil_r.
  - cbn [for_each].
    destruct (compile_step syntaxFile p acc) as [t1 ->].
    destruct (IH (acc ++ compiled [p])) as [t2 H2].
    exists (t1 ++ t2). cbn [bind]. rewrite H2.
    now rewrite (compiled_cons p ps), app_assoc.
Qed.

Lemma compileFirstLineMatches_ok (syntaxFile : string) (ps : list string) :
  exists tr,
    NewFile.compileFirstLineMatches syntaxFile ps = (Ok (compiled ps), tr).
Proof. exact (compile_loop syntaxFile ps []). Qed.

Lemma addUserMapping_ok (syntaxFile : string) (ps : list string)
  (acc : list Entry) :
  exists tr,
    NewFile.addUserMapping (syntaxFile, ps) acc
    = (Ok (acc ++ user_entries [(syntaxFile, ps)]), tr).
Proof.
  unfold NewFile.addUserMapping.
  destruct (compileFirstLineMatches_ok syntaxFile ps) as [t ->].
  cbn [bind user_entries]. destruct (compiled ps) as [|r rs]; simpl; eexists.
  - now rewrite !app_nil_r.
  - reflexivity.
Qed.

Lemma user_entries_cons (item : string * list string)
  (items : list (string * list string)) :
  user_entries (item :: items) = user_entries [item] ++ user_entries items.
Proof. destruct item as [f ps]. simpl. now destruct (compiled ps). Qed.

Lemma user_entries_app (xs ys : list (string * list string)) :
  user_entries (xs ++ ys) = user_entries xs ++ user_entries ys.
Proof.
  induction xs as [|x xs IH]; [reflexivity|].
  rewrite <- app_comm_cons, user_entries_cons, IH, app_assoc.
  now rewrite <- user_entries_cons.
Qed.

Lemma user_loop (items : list (string * list string)) (acc : list Entry) :
  exists tr,
    for_each items NewFile.addUserMapping acc
    = (Ok (acc ++ user_entries items), tr).
Proof.
  revert acc; induction items as [|[f ps] items IH]; intros acc.
  - exists []. simpl. now rewrite !app_nil_r.
  - cbn [for_each]. destruct (addUserMapping_ok f ps acc) as [t1 ->].
    destruct (IH (acc ++ user_entries [(f, ps)])) as [t2 H2].
    exists (t1 ++ t2). cbn [bind]. rewrite H2.
    now rewrite (user_entries_cons (f, ps) items), app_assoc.
Qed.

(** On a [syntax_mapping] that is a mapping to lists of pattern
    strings, [buildSyntaxMappingsFromUser] returns the user-defined
    entries. *)
Lemma buildSyntaxMappingsFromUser_ok (settings : NewFile.Settings) :
  exists tr,
    NewFile.buildSyntaxMappingsFromUser settings
    = (Ok (user_entries (NewFile.syntax_mapping settings)), tr).
Proof. exact (user_loop (NewFile.syntax_mapping settings) []). Qed.

Lemma rebuildSyntaxMappings_ok (settings : NewFile.Settings)
  (self : NewFile.SyntaxMappings) :
  exists tr,
    NewFile.rebuildSyntaxMappings settings self
    = (Ok (NewFile.mkSyntaxMappings
             (user_entries (NewFile.syntax_mapping settings)
              ++ NewFile.syntaxMappingsSt self)
             (NewFile.syntaxMappingsSt self)), tr).
Proof.
  unfold NewFile.rebuildSyntaxMappings.
  destruct (buildSyntaxMappingsFromUser_ok settings) as [t ->].
  simpl. eexists. reflexivity.
Qed.

Lemma compiled_nonempty_or_all_fail (ps : list string) :
  compiled ps = [] <-> forall p, In p ps -> re_compile p = None.
Proof.
  induction ps as [|p ps IH]; simpl.
  - split; [intros _ p [] | reflexivity].
  - destruct (re_compile p) as [r|] eqn:E.
    + split; [discriminate | intros H; specialize (H p (or_introl eq_refl)); congruence].
    + rewrite IH. split.
      * intros H q [<-|Hq]; [assumption | now apply H].
      * intros H q Hq. apply H. now right.
Qed.

Lemma user_entries_nonempty (items : list (string * list string)) (e : Entry) :
  In e (user_entries items) -> snd e <> [].
Proof.
  induction items as [|[f ps] items IH]; simpl; [intros []|].
  destruct (compiled ps) as [|r rs] eqn:E; [exact IH|].
  intros [<-|H]; [discriminate | now apply IH].
Qed.

End Build.

Section HostBuild.
Import Py Sublime Spec.
Context {RE : ReLib} {YAML : YamlLib}.

(** ** The host-discovered part *)

Lemma host_entries_cons (res : Resources) (f : string) (rest : list string) :
  host_entries res (f :: rest) = host_entries res [f] ++ host_entries res rest.
Proof.
  simpl.
  destruct (NewFile.findFirstLineMatch (load_resource res f))
    as [[[|p|x|xs|items]|e] t]; try reflexivity.
  now destruct (re_compile p).
Qed.

Lemma addSyntaxResource_ok (res : Resources) (f : string)
  (acc out : list Entry) (tr : list NewFile.Ev) :
  NewFile.addSyntaxResource res f acc = (Ok out, tr) ->
  out = acc ++ host_entries res [f].
Proof.
  unfold NewFile.addSyntaxResource. simpl.
  destruct (NewFile.findFirstLineMatch (load_resource res f))
    as [[v|e] t]; [|discriminate].
  destruct v as [|p|x|xs|items]; simpl;
    try (intros [= <- <-]; now rewrite app_nil_r).
  destruct (re_compile p) as [r|]; simpl; intros [= <- <-];
    [reflexivity | now rewrite app_nil_r].
Qed.

Lemma host_loop (res : Resources) (files : list string)
  (acc out : list Entry) (tr : list NewFile.Ev) :
  for_each files (NewFile.addSyntaxResource res) acc = (Ok out, tr) ->
  out = acc ++ host_entries res files.
Proof.
  revert acc tr; induction files as [|f files IH]; intros acc tr.
  - simpl. intros [= <- <-]. now rewrite app_nil_r.
  - cbn [for_each].
    destruct (NewFile.addSyntaxResource res f acc) as [[acc1|e] t1] eqn:E1;
      cbn [bind]; [|discriminate].
    destruct (for_each files (NewFile.addSyntaxResource res) acc1)
      as [[o|e] t2] eqn:E2; intros [= <- <-].
    apply IH in E2. apply addSyntaxResource_ok in E1. subst.
    now rewrite (host_entries_cons res f files), app_assoc.
Qed.

(** When [buildSyntaxMappingsFromSt] returns, it returns the
    host-discovered entries. *)
Lemma buildSyntaxMappingsFromSt_ok (res : Resources) (st : list Entry)
  (tr : list NewFile.Ev) :
  NewFile.buildSyntaxMappingsFromSt res = (Ok st, tr) ->
  st = host_entries res (NewFile.findSyntaxResources res true).
Proof. intros H. now apply host_loop in H. Qed.

Lemma host_entries_spec (res : Resources) (files : list string) (e : Entry) :
  In e (host_entries res files) ->
  exists pattern r t,
    e = (fst e, [r]) /\ In (fst e) files /\
    NewFile.findFirstLineMatch (load_resource res (fst e))
      = (Ok (PStr pattern), t) /\
    re_compile pattern = Some r.
Proof.
  induction files as [|f files IH]; simpl; [intros []|].
  assert (Hrest : In e (host_entries res files) ->
                  exists pattern r t,
                    e = (fst e, [r]) /\ (f = fst e \/ In (fst e) files) /\
                    NewFile.findFirstLineMatch (load_resource res (fst e))
                      = (Ok (PStr pattern), t) /\
                    re_compile pattern = Some r).
  { intros H. destruct (IH H) as (p & r & t & H1 & H2 & H3 & H4).
    exists p, r, t. auto. }
  destruct (NewFile.findFirstLineMatch (load_resource res f))
    as [[[|p|x|xs|items]|ex] t] eqn:E; try exact Hrest.
  destruct (re_compile p) as [r|] eqn:Ec; [|exact Hrest].
  intros [<-|H]; [|now apply Hrest].
  exists p, r, t. simpl. auto.
Qed.

(** ** The table of the running plugin *)

Lemma init_ok (res : Resources) (settings : NewFile.Settings)
  (self : NewFile.SyntaxMappings) (tr : list NewFile.Ev) :
  NewFile.init res settings = (Ok self, tr) ->
  exists st tr0,
    NewFile.buildSyntaxMappingsFromSt res = (Ok st, tr0) /\
    self = NewFile.mkSyntaxMappings
             (user_entries (NewFile.syntax_mapping settings) ++ st) st.
Proof.
  unfold NewFile.init.
  destruct (NewFile.buildSyntaxMappingsFromSt res) as [[st|e] t0];
    cbn [bind]; [|discriminate].
  destruct (rebuildSyntaxMappings_ok settings (NewFile.mkSyntaxMappings [] st))
    as [t1 ->].
  intros [= <- <-]. now exists st, t0.
Qed.

(** The table of the running plugin is the user-defined entries of the
    settings last read, followed by the host-discovered entries. *)
Lemma built_shape (res : Resources) (settings : NewFile.Settings)
  (self : NewFile.SyntaxMappings) :
  built res settings self ->
  NewFile.syntaxMappingsSt self
    = host_entries res (NewFile.findSyntaxResources res true)
  /\ NewFile.value self
     = user_entries (NewFile.syntax_mapping settings)
       ++ host_entries res (NewFile.findSyntaxResources res true).
Proof.
  induction 1 as [settings self tr Hinit
                 |settings0 self0 settings self tr Hb [IH1 IH2] Hre].
  - apply init_ok in Hinit as (st & t0 & Hst & ->).
    apply buildSyntaxMappingsFromSt_ok in Hst as ->. now split.
  - destruct (rebuildSyntaxMappings_ok settings self0) as [t Ht].
    rewrite Ht in Hre. injection Hre as <- <-.
    unfold NewFile.value; simpl. now rewrite IH1.
Qed.

End HostBuild.

(* ================================================================= *)
(** * Properties of the mapping table *)

Section Table.
Import Py Sublime Spec.
Context {RE : ReLib} {YAML : YamlLib}.

Lemma first_hit {A} (f : A -> bool) (xs : list A) :
  existsb f xs = true ->
  exists xs1 x xs2,
    xs = xs1 ++ x :: xs2 /\ (forall y, In y xs1 -> f y = false) /\ f x = true.
Proof.
  induction xs as [|x xs IH]; simpl; [discriminate|].
  destruct (f x) eqn:E; simpl.
  - intros _. exists [], x, xs. repeat split; [intros y [] | assumption].
  - intros H. destruct (IH H) as (xs1 & y & xs2 & -> & Hmiss & Hhit).
    exists (x :: xs1), y, xs2. repeat split; [|assumption].
    intros z [<-|Hz]; [assumption | now apply Hmiss].
Qed.

(** C2, as amended.  [value()] is the user-defined entries (in
    configuration order) followed by the host-discovered entries (in
    discovery order); and when some user entry has a pattern found in
    the string used for matching, the applied syntax is the identifier
    of the earliest such user entry, whatever the host-discovered
    entries are. *)
Theorem C2_user_entries_first :
  forall (res : Resources) (settings : NewFile.Settings)
         (self : NewFile.SyntaxMappings),
    built res settings self ->
    NewFile.value self
    = user_entries (NewFile.syntax_mapping settings)
      ++ host_entries res (NewFile.findSyntaxResources res true)
    /\
    forall (view : View) (pre : list Entry) (U : Entry) (post : list Entry),
      user_entries (NewFile.syntax_mapping settings) = pre ++ U :: post ->
      (forall e, In e pre ->
         entry_matches (NewFile.getPartialFirstLine settings view) e = false) ->
      entry_matches (NewFile.getPartialFirstLine settings view) U = true ->
      exists view' tr,
        NewFile.matchAndSetSyntax settings self view = (Ok view', tr) /\
        syntax_file view' = fst U.
Proof.
  intros res settings self Hb.
  destruct (built_shape res settings self Hb) as [_ Hval].
  split; [exact Hval|].
  intros view pre [f rs] post Huser Hpre HU.
  unfold entry_matches in HU. simpl in HU.
  apply first_hit in HU as (rs1 & r & rs2 & -> & Hmiss & Hhit).
  unfold NewFile.matchAndSetSyntax.
  rewrite Hval, Huser, <- app_assoc, <- app_comm_cons.
  eexists _, _. split; [now apply scanMappings_hit | reflexivity].
Qed.

(** C8.  No entry of [value()] has an empty pattern list: a user item
    whose pattern strings all fail to compile contributes no entry, and
    a host-discovered entry stands for a resource whose extracted
    pattern compiled. *)
Theorem C8_no_empty_pattern_list :
  forall (res : Resources) (settings : NewFile.Settings)
         (self : NewFile.SyntaxMappings),
    built res settings self ->
    (forall e, In e (NewFile.value self) -> snd e <> [])
    /\
    (forall items1 syntaxFile patterns items2,
        NewFile.syntax_mapping settings
          = items1 ++ (syntaxFile, patterns) :: items2 ->
        (forall p, In p patterns -> re_compile p = None) ->
        NewFile.value self
        = user_entries items1 ++ user_entries items2
          ++ NewFile.syntaxMappingsSt self)
    /\
    (forall e, In e (NewFile.syntaxMappingsSt self) ->
       exists pattern r t,
         e = (fst e, [r]) /\
         In (fst e) (NewFile.findSyntaxResources res true) /\
         NewFile.findFirstLineMatch (load_resource res (fst e))
           = (Ok (PStr pattern), t) /\
         re_compile pattern = Some r).
Proof.
  intros res settings self Hb.
  destruct (built_shape res settings self Hb) as [Hst Hval].
  repeat split.
  - intros e He. rewrite Hval in He. apply in_app_or in He as [He|He].
    + now apply user_entries_nonempty in He.
    + apply host_entries_spec in He as (p & r & t & -> & _). discriminate.
  - intros items1 f ps items2 Hitems Hfail.
    rewrite Hval, Hst, Hitems, user_entries_app, user_entries_cons.
    simpl. apply compiled_nonempty_or_all_fail in Hfail. rewrite Hfail.
    simpl. now rewrite <- app_assoc.
  - intros e He. rewrite Hst in He. now apply host_entries_spec in He.
Qed.

(** C10.  Every host-discovered entry carries exactly one compiled
    pattern, so an entry of [value()] with another number of patterns
    is a user-defined entry. *)
Theorem C10_host_entries_single_pattern :
  forall (res : Resources) (settings : NewFile.Settings)
         (self : NewFile.SyntaxMappings),
    built res settings self ->
    (forall e, In e (NewFile.syntaxMappingsSt self) ->
       List.length (snd e) = 1)
    /\
    (forall e, In e (NewFile.value self) -> List.length (snd e) <> 1 ->
       In e (user_entries (NewFile.syntax_mapping settings))).
Proof.
  intros res settings self Hb.
  destruct (built_shape res settings self Hb) as [Hst Hval].
  assert (Hone : forall e,
             In e (host_entries res (NewFile.findSyntaxResources res true)) ->
             List.length (snd e) = 1).
  { intros e He. apply host_entries_spec in He as (p & r & t & -> & _).
    reflexivity. }
  split.
  - intros e He. rewrite Hst in He. now apply Hone.
  - intros e He Hlen. rewrite Hval in He. apply in_app_or in He as [He|He].
    + assumption.
    + apply Hone in He. contradiction.
Qed.

End Table.

(* ================================================================= *)
(** * The first-line-match extractor *)

Section Extractor.
Import Py Sublime Spec.
Local Open Scope py_scope.
Context {RE : ReLib} {YAML : YamlLib}.

Lemma find_absent_iff (s sub : string) :
  (find s sub =? -1)%Z = true <-> ~ occurs sub s.
Proof.
  split.
  - intros H. apply find_absent in H. now apply find_from_none in H.
  - intros H. destruct (find s sub =? -1)%Z eqn:E; [reflexivity|].
    apply find_nonneg in E as (k & Hk & _).
    apply find_from_some in Hk as (_ & Hocc & _).
    exfalso. apply H. now exists (k - 0).
Qed.

Lemma find_present (s sub : string) :
  (find s sub =? -1)%Z = false -> occurs sub s.
Proof.
  intros E. apply find_nonneg in E as (k & Hk & _).
  apply find_from_some in Hk as (_ & Hocc & _). now exists (k - 0).
Qed.

(** The text that [findFirstLineMatchYaml] goes on with is the content
    cut at the first [contexts:]. *)
Lemma yaml_cut (content : string) :
  cut_at_first "contexts:" content
    (let cutPos := find content "contexts:" in
     if negb (cutPos =? -1)%Z then slice content 0 cutPos else content).
Proof.
  cbv zeta. destruct (find content "contexts:" =? -1)%Z eqn:E; simpl.
  - right. split; [reflexivity | now apply find_absent_iff].
  - left. apply find_nonneg in E as (k & Hk & ->).
    apply find_from_some in Hk as (_ & Hocc & Hmin).
    rewrite Nat.sub_0_r in Hocc, Hmin.
    destruct Hocc as (pre & post & Hc & Hlen).
    rewrite slice_0, Nat2Z.id by lia.
    assert (Ht : String.substring 0 k content = pre)
      by (rewrite Hc, <- Hlen; apply substring_0_app).
    rewrite Ht. exists post. split; [assumption|].
    intros m Hm. apply Hmin. lia.
Qed.

Lemma app_eq_prefix (t pre x y : string) :
  (t ++ x = pre ++ y)%string -> String.length t <= String.length pre ->
  exists z, pre = (t ++ z)%string.
Proof.
  revert pre; induction t as [|c t IH]; intros pre H Hlen.
  - now exists pre.
  - destruct pre as [|d pre]; simpl in *; [lia|].
    injection H as -> H. destruct (IH pre H) as [z ->]; [lia|]. now exists z.
Qed.


(** What is cut off starts no later than any occurrence of the marker. *)
Lemma cut_is_prefix (marker content t pre post : string) :
  cut_at_first marker content t ->
  content = (pre ++ marker ++ post)%string ->
  exists z, pre = (t ++ z)%string.
Proof.
  intros [(post' & Hc & Hmin)|[-> Hno]] Hpre.
  - apply (app_eq_prefix t pre (marker ++ post') (marker ++ post)).
    + congruence.
    + destruct (Nat.le_gt_cases (String.length t) (String.length pre))
        as [H|H]; [assumption|].
      exfalso. apply (Hmin _ H). now exists pre, post.
  - exfalso. apply Hno. exists (String.length pre). now exists pre, post.
Qed.



(** C9.  On a content that is empty or made of white space only,
    [findFirstLineMatch] raises [IndexError] at [content[0]]: it does
    not return [None], and it has not looked for either format. *)
Theorem C9_blank_content_raises :
  forall content : string,
    all_space content = true ->
    NewFile.findFirstLineMatch content = (Raise IndexError, []).
Proof.
  intros content H. unfold NewFile.findFirstLineMatch.
  now rewrite (strip_all_space content H).
Qed.

End Extractor.

(* ================================================================= *)
(** * Failures while the host-discovered list is built *)

Section BuildFailures.
Import Py Sublime Spec.
Context {RE : ReLib} {YAML : YamlLib}.

Lemma string_app_nil_length (t z : string) :
  String.length (t ++ z) <= String.length t -> z = EmptyString.
Proof.
  rewrite string_app_length. destruct z; [reflexivity | simpl; lia].
Qed.

(** The cut is a function of the content. *)
Lemma cut_at_first_unique (marker content t1 t2 : string) :
  cut_at_first marker content t1 -> cut_at_first marker content t2 ->
  t1 = t2.
Proof.
  intros H1 H2.
  destruct H1 as [(p1 & Hc1 & Hm1)|[-> Hno1]];
    destruct H2 as [(p2 & Hc2 & Hm2)|[-> Hno2]].
  - assert (C1 : cut_at_first marker content t1) by (left; now exists p1).
    assert (C2 : cut_at_first marker content t2) by (left; now exists p2).
    destruct (cut_is_prefix _ _ _ _ _ C1 Hc2) as [z2 Hz2].
    destruct (cut_is_prefix _ _ _ _ _ C2 Hc1) as [z1 Hz1].
    assert (Hz : z2 = EmptyString).
    { apply (string_app_nil_length t1).
      rewrite <- Hz2. apply (f_equal String.length) in Hz1.
      rewrite string_app_length in Hz1. lia. }
    subst z2. rewrite Hz2. clear. induction t1; simpl; congruence.
  - exfalso. apply Hno2. exists (String.length t1). now exists t1, p1.
  - exfalso. apply Hno1. exists (String.length t2). now exists t2, p2.
  - reflexivity.
Qed.

Lemma yaml_parse_failure (content t : string) (e : exn) :
  String.prefix "%" (strip content) = true ->
  cut_at_first "contexts:" (strip content) t ->
  occurs "first_line_match" t ->
  yaml_load t = Raise e ->
  NewFile.findFirstLineMatch content = (Raise e, [YamlLoad t]).
Proof.
  intros Hpct Hcut Hocc Hload. unfold NewFile.findFirstLineMatch.
  apply prefix_spec in Hpct as [s Es]. simpl in Es.
  rewrite Es in *. cbn [index0 lift bind]. rewrite Ascii.eqb_refl.
  unfold NewFile.findFirstLineMatchYaml.
  pose proof (yaml_cut (String "%"%char s)) as Hcut'. cbv zeta in Hcut'.
  rewrite <- (cut_at_first_unique _ _ _ _ Hcut Hcut').
  destruct (find t "first_line_match" =? -1)%Z eqn:E.
  - apply find_absent_iff in E. contradiction.
  - unfold emit, lift, bind. now rewrite Hload.
Qed.

Lemma raise_aborts_build (res : Resources) (before after : list string)
  (f : string) (acc : list Entry) (tr0 t : list NewFile.Ev) (e : exn) :
  NewFile.findSyntaxResources res true = before ++ f :: after ->
  for_each before (NewFile.addSyntaxResource res) [] = (Ok acc, tr0) ->
  NewFile.findFirstLineMatch (load_resource res f) = (Raise e, t) ->
  NewFile.buildSyntaxMappingsFromSt res = (Raise e, tr0 ++ t).
Proof.
  intros Hfiles Hbefore Hraise. unfold NewFile.buildSyntaxMappingsFromSt.
  rewrite Hfiles, for_each_app, Hbefore. cbn [bind for_each].
  unfold NewFile.addSyntaxResource at 1. rewrite Hraise. reflexivity.
Qed.

Lemma compile_failure_skipped (res : Resources) (f : string)
  (acc : list Entry) (v : PyVal) (t : list NewFile.Ev) :
  NewFile.findFirstLineMatch (load_resource res f) = (Ok v, t) ->
  NewFile.is_none v = false ->
  (forall p, v = PStr p -> re_compile p = None) ->
  NewFile.addSyntaxResource res f acc
  = (Ok acc,
     t ++ [LogError ("regex compilation failed in " ++ f ++ ": "
                     ++ NewFile.py_str v)%string]).
Proof.
  intros Hfind Hsome Hfail. unfold NewFile.addSyntaxResource.
  rewrite Hfind. cbn [bind]. rewrite Hsome. cbn [negb].
  destruct v as [|p|x|xs|items]; try discriminate; try reflexivity.
  unfold NewFile.py_re_compile. now rewrite (Hfail p eq_refl).
Qed.

(** C5, as amended.  A YAML content that fails to parse makes the
    extractor raise the parser's exception; the table builder does not
    catch what the extractor raises: [buildSyntaxMappingsFromSt] raises
    it, returns no list, logs nothing for that resource and does not
    reach the resources after it.  What the builder catches is a failed
    regex compilation of an extracted pattern: it is logged with the
    resource and the pattern, and the resource is skipped. *)
Theorem C5_extractor_failure_aborts_build :
  forall (res : Resources) (before after : list string) (f : string)
         (acc : list Entry) (tr0 t : list NewFile.Ev) (e : exn),
    NewFile.findSyntaxResources res true = before ++ f :: after ->
    for_each before (NewFile.addSyntaxResource res) [] = (Ok acc, tr0) ->
    NewFile.findFirstLineMatch (load_resource res f) = (Raise e, t) ->
    NewFile.buildSyntaxMappingsFromSt res = (Raise e, tr0 ++ t)
    /\
    (forall cut,
        String.prefix "%" (strip (load_resource res f)) = true ->
        cut_at_first "contexts:" (strip (load_resource res f)) cut ->
        occurs "first_line_match" cut ->
        yaml_load cut = Raise e ->
        t = [YamlLoad cut])
    /\
    (forall f' acc' v t',
        NewFile.findFirstLineMatch (load_resource res f') = (Ok v, t') ->
        NewFile.is_none v = false ->
        (forall p, v = PStr p -> re_compile p = None) ->
        NewFile.addSyntaxResource res f' acc'
        = (Ok acc',
           t' ++ [LogError ("regex compilation failed in " ++ f' ++ ": "
                            ++ NewFile.py_str v)%string])).
Proof.
  intros res before after f acc tr0 t e Hfiles Hbefore Hraise.
  split; [now apply (raise_aborts_build res before after f acc)|]. split.
  - intros cut Hpct Hcut Hocc Hload.
    rewrite (yaml_parse_failure _ cut e Hpct Hcut Hocc Hload) in Hraise.
    congruence.
  - intros f' acc' v t'. apply compile_failure_skipped.
Qed.

End BuildFailures.

(* ================================================================= *)
(** * The working-scope filter and the event gate *)

Section Gate.
Import Py Sublime Spec.
Context {RE : ReLib}.

Lemma no_command_nil : no_command [].
Proof. intros name []. Qed.

Lemma no_command_app (t1 t2 : list AutoSet.Ev) :
  no_command t1 -> no_command t2 -> no_command (t1 ++ t2).
Proof.
  intros H1 H2 name H. apply in_app_or in H as [H|H];
    [now apply (H1 name) | now apply (H2 name)].
Qed.

Lemma isEventListenerEnabled_total (g : AutoSet.Globals) (event : string) :
  exists flag tr,
    AutoSet.isEventListenerEnabled g event = (Ok flag, tr) /\ no_command tr.
Proof.
  unfold AutoSet.isEventListenerEnabled, lift.
  destruct (AutoSet.event_listener_flag g event) as [flag|e]; simpl.
  - exists flag, []. split; [reflexivity | apply no_command_nil].
  - eexists true, _. split; [reflexivity|].
    intros name [H|[]]. discriminate.
Qed.

Lemma isOnWorkingScope_total (g : AutoSet.Globals) (view : View) :
  exists flag tr,
    AutoSet.isOnWorkingScope g view = (Ok flag, tr) /\ no_command tr /\
    (AutoSet.workingScopeRegex g = None -> flag = false /\ tr = []).
Proof.
  unfold AutoSet.isOnWorkingScope.
  destruct (AutoSet.workingScopeRegex g) as [r|]; simpl.
  - destruct (re_search r (scope_name0 view)); simpl; eexists _, _;
      (split; [reflexivity|]); (split; [|discriminate]);
      intros name [H|[]]; discriminate.
  - exists false, []. repeat split. apply no_command_nil.
Qed.

(** A condition that ends with the working-scope check on a disabled
    filter does not hold. *)
Lemma and_then_closed (g : AutoSet.Globals) (view : View)
  (x : Py.M AutoSet.Ev bool) :
  AutoSet.workingScopeRegex g = None ->
  (exists flag tr, x = (Ok flag, tr) /\ no_command tr) ->
  exists tr,
    AutoSet.and_then x (AutoSet.isOnWorkingScope g view) = (Ok false, tr)
    /\ no_command tr.
Proof.
  intros Hnone (flag & tr & -> & Hnc).
  destruct (isOnWorkingScope_total g view) as (w & tw & Hw & _ & Hclosed).
  destruct (Hclosed Hnone) as [-> ->].
  unfold AutoSet.and_then. cbn [bind]. rewrite Hw.
  destruct flag; simpl; eexists; (split; [reflexivity|]);
    rewrite ?app_nil_r; assumption.
Qed.

Lemma when_run_false (g : AutoSet.Globals) (view : View)
  (cond : Py.M AutoSet.Ev bool) :
  (exists tr, cond = (Ok false, tr) /\ no_command tr) ->
  exists tr, AutoSet.when_run g view cond = (Ok view, tr) /\ no_command tr.
Proof.
  intros (tr & -> & Hnc). unfold AutoSet.when_run. simpl.
  exists (tr ++ []). split; [reflexivity|]. now rewrite app_nil_r.
Qed.

Lemma modified_closed (g : AutoSet.Globals) (view : View) :
  AutoSet.workingScopeRegex g = None ->
  exists tr,
    AutoSet.and_then (ret (AutoSet.isOnlyOneCursor view))
      (AutoSet.and_then (AutoSet.isFirstCursorNearBeginning view)
         (AutoSet.isOnWorkingScope g view))
    = (Ok false, tr) /\ no_command tr.
Proof.
  intros Hnone. unfold AutoSet.isOnlyOneCursor.
  destruct (sel view) as [|cursor [|c2 rest]] eqn:Es.
  - exists []. split; [reflexivity | apply no_command_nil].
  - destruct (and_then_closed g view
                (AutoSet.isFirstCursorNearBeginning view) Hnone)
      as (tr & Htr & Hnc).
    { unfold AutoSet.isFirstCursorNearBeginning. rewrite Es.
      eexists _, []. split; [reflexivity | apply no_command_nil]. }
    unfold AutoSet.and_then at 1. cbn [List.length Nat.eqb ret bind].
    rewrite Htr. exists ([] ++ tr). now split.
  - exists []. split; [reflexivity | apply no_command_nil].
Qed.

Lemma deliver_closed (g : AutoSet.Globals) (e : AutoSet.HostEvent)
  (view : View) :
  AutoSet.workingScopeRegex g = None ->
  exists tr, AutoSet.deliver g e view = (Ok view, tr) /\ no_command tr.
Proof.
  intros Hnone.
  destruct e; simpl;
    unfold AutoSet.on_activated_async, AutoSet.on_clone_async,
      AutoSet.on_load_async, AutoSet.on_modified_async,
      AutoSet.on_new_async, AutoSet.on_post_text_command,
      AutoSet.on_pre_save_async;
    apply when_run_false;
    try (apply and_then_closed;
         [assumption | apply isEventListenerEnabled_total]).
  - (* modified *)
    destruct (isEventListenerEnabled_total g "on_modified_async")
      as (flag & t1 & H1 & Hnc1).
    destruct (modified_closed g view Hnone) as (t2 & H2 & Hnc2).
    unfold AutoSet.and_then at 1. rewrite H1. cbn [bind].
    destruct flag.
    + rewrite H2. eexists. split; [reflexivity | now apply no_command_app].
    + eexists. split; [reflexivity|]. now rewrite app_nil_r.
  - (* a text command has been executed *)
    destruct (isOnWorkingScope_total g view) as (w & tw & Hw & _ & Hclosed).
    destruct (Hclosed Hnone) as [-> ->].
    unfold AutoSet.and_then at 1. rewrite Hw. simpl.
    exists []. split; [reflexivity | apply no_command_nil].
Qed.

(** C4.  When the [working_scope] pattern does not compile,
    [compileWorkingScope] sets the filter to [None], logs an error and
    shows the same message, which ends with the pattern, in an error
    dialog.  With the filter at [None] the working-scope check answers
    [False] and no delivered event runs a command, and this lasts over
    further patterns that do not compile, until a pattern that compiles
    is configured. *)
Theorem C4_invalid_working_scope_fails_closed :
  forall g : AutoSet.Globals,
    re_compile (AutoSet.working_scope (AutoSet.settings g)) = None ->
    let pattern := AutoSet.working_scope (AutoSet.settings g) in
    let msg := AutoSet.workingScopeErrorMessage pattern in
    let g' := AutoSet.set_workingScopeRegex g None in
    AutoSet.compileWorkingScope g = (Ok g', [LogError msg; ErrorMessage msg])
    /\ (exists intro, msg = (intro ++ pattern)%string)
    /\ (forall view, AutoSet.isOnWorkingScope g' view = (Ok false, []))
    /\ (forall e view,
          exists tr, AutoSet.deliver g' e view = (Ok view, tr) /\ no_command tr)
    /\ (forall s,
          re_compile (AutoSet.working_scope s) = None ->
          exists tr,
            AutoSet.compileWorkingScope (AutoSet.set_settings g' s)
            = (Ok (AutoSet.set_settings g' s), tr))
    /\ (forall s r,
          re_compile (AutoSet.working_scope s) = Some r ->
          AutoSet.compileWorkingScope (AutoSet.set_settings g' s)
          = (Ok (AutoSet.set_workingScopeRegex (AutoSet.set_settings g' s)
                   (Some r)), [])).
Proof.
  intros g Hfail pattern msg g'. repeat split.
  - unfold AutoSet.compileWorkingScope, AutoSet.py_re_compile.
    fold pattern. subst pattern. now rewrite Hfail.
  - eexists. unfold msg, AutoSet.workingScopeErrorMessage.
    rewrite <- !string_app_assoc. reflexivity.
  - intros e view. now apply deliver_closed.
  - intros s Hs. unfold AutoSet.compileWorkingScope, AutoSet.py_re_compile.
    simpl. rewrite Hs. simpl. eexists. reflexivity.
  - intros s r Hs. unfold AutoSet.compileWorkingScope, AutoSet.py_re_compile.
    simpl. now rewrite Hs.
Qed.

(** C6, on the code.  After the host's [paste] command the gate of
    [on_post_text_command] runs no command, whatever the feature toggle
    and the working scope are: the handler compares the command name
    with [patse]. *)
Theorem C6_paste_runs_no_command :
  forall (g : AutoSet.Globals) (view : View),
  exists tr,
    AutoSet.on_post_text_command g view "paste" = (Ok view, tr)
    /\ no_command tr.
Proof.
  intros g view. unfold AutoSet.on_post_text_command.
  apply when_run_false.
  destruct (isOnWorkingScope_total g view) as (w & tw & Hw & Hnw & _).
  destruct (isEventListenerEnabled_total g "on_post_paste")
    as (flag & tf & Hf & Hnf).
  unfold AutoSet.and_then. rewrite Hw. cbn [bind]. destruct w.
  - rewrite Hf. cbn [bind]. destruct flag; simpl; eexists;
      (split; [reflexivity|]); rewrite ?app_nil_r;
      now apply no_command_app.
  - simpl. eexists. split; [reflexivity|]. now rewrite app_nil_r.
Qed.

(** The other command names of the handler: [paste_and_indent], and the
    [patse] it compares with, do run the applier when the toggle is on
    and the view is on the working scope. *)
Lemma paste_and_indent_runs_command (g : AutoSet.Globals) (view : View)
  (r : Regex) (d : list (string * bool)) (command_name : string) :
  AutoSet.workingScopeRegex g = Some r ->
  re_search r (scope_name0 view) = true ->
  AutoSet.event_listeners (AutoSet.settings g) = Some d ->
  AutoSet.dict_lookup "on_post_paste" d = Some true ->
  command_name = "paste_and_indent" \/ command_name = "patse" ->
  exists out tr,
    AutoSet.on_post_text_command g view command_name
    = (out, Search r (scope_name0 view)
            :: RunCommand "auto_set_syntax" :: tr).
Proof.
  intros Hr Hs Hd Hflag Hname.
  unfold AutoSet.on_post_text_command, AutoSet.when_run, AutoSet.and_then,
    AutoSet.isOnWorkingScope, AutoSet.isEventListenerEnabled,
    AutoSet.event_listener_flag, AutoSet.run_command.
  rewrite Hr, Hd, Hflag, Hs.
  destruct Hname as [-> | ->]; simpl;
    destruct (AutoSet.run g view) as [out tr]; eexists _, _; reflexivity.
Qed.

End Gate.

(* ================================================================= *)
(** * The properties on the sample host *)

Section OnSamples.
Import Py Sublime Spec Samples.

(** The scenarios of the specification. *)

Example python_shebang :
  match Toy.compile "^#!.*python" with
  | Some r =>
      fst (NewFile.matchAndSetSyntax (RE := Toy.re)
             (NewFile.mkSettings [] (-1))
             (NewFile.mkSyntaxMappings (RE := Toy.re)
                [("Packages/Python/Python.sublime-syntax", [r])] [])
             (mkView "#!/usr/bin/env python3" [] "text.plain" EmptyString))
      = Ok (mkView "#!/usr/bin/env python3" [] "text.plain"
              "Packages/Python/Python.sublime-syntax")
  | None => False
  end.
Proof. reflexivity. Qed.

Example empty_table_leaves_syntax :
  NewFile.matchAndSetSyntax (RE := Toy.re) (NewFile.mkSettings [] (-1))
    (NewFile.mkSyntaxMappings [] []) ruby_script
  = (Ok ruby_script, []).
Proof. reflexivity. Qed.

Example ruby_first_line_match :
  fst (NewFile.findFirstLineMatch (RE := Toy.re) (YAML := Toy.yaml) ruby_syntax)
  = Ok (PStr "^#!.*ruby")
  /\ fst (NewFile.findFirstLineMatch (RE := Toy.re) (YAML := Toy.yaml)
            late_syntax)
     = Ok PNone.
Proof. split; reflexivity. Qed.

Example php_firstLineMatch :
  NewFile.findFirstLineMatchXml
    ("<key>firstLineMatch</key>" ++ nl ++ "<string>^<\?php</string>")%string
  = PStr "^<\?php".
Proof. reflexivity. Qed.

Example duplicates_dropped :
  NewFile.findSyntaxResources
    (Toy.resources [("Packages/Java/Java.tmLanguage", EmptyString);
                    ("Packages/Java/Java.sublime-syntax", EmptyString)])
    true
  = ["Packages/Java/Java.sublime-syntax"].
Proof. reflexivity. Qed.

Lemma user_table_built :
  built (RE := Toy.re) (YAML := Toy.yaml) packages user_settings user_table.
Proof. eapply built_init. vm_compute. reflexivity. Qed.

(** The scan on the sample table stops at the first regex of the first
    entry for a Ruby script, and searches every regex for a line that
    none of them finds. *)
Lemma C1_witness :
  AutoSet.run (loaded "plain" all_enabled) ruby_script
  = (Ok (set_syntax_file ruby_script "Packages/User/A.sublime-syntax"),
     searches "#!/usr/bin/ruby" (snd entry_A))
  /\
  NewFile.matchAndSetSyntax user_settings user_table
    (mkView "hello" [] "text.plain" EmptyString)
  = (Ok (mkView "hello" [] "text.plain" EmptyString),
     searches "hello" (flat_map snd (NewFile.value user_table))).
Proof.
  split.
  - destruct (C1_first_match_wins (RE := Toy.re) (loaded "plain" all_enabled)
                user_settings user_table ruby_script) as [[Hhit _] _].
    apply (Hhit [] "Packages/User/A.sublime-syntax" []
             (nth 0 (snd entry_A) (Toy.mkRegex false [] false)) []
             (tl (NewFile.value user_table)));
      [reflexivity | intros e [] | intros q [] | reflexivity].
  - destruct (C1_first_match_wins (RE := Toy.re) (loaded "plain" all_enabled)
                user_settings user_table
                (mkView "hello" [] "text.plain" EmptyString)) as [_ [_ Hmiss]].
    apply Hmiss. intros e He. vm_compute in He.
    repeat (destruct He as [<-|He]; [reflexivity|]). destruct He.
Defined.

(** The table of the sample host puts the user's entries first, and the
    Ruby script gets the syntax of the earliest user entry that it
    matches. *)
Lemma C2_witness :
  exists view' tr,
    NewFile.matchAndSetSyntax user_settings user_table ruby_script
    = (Ok view', tr)
    /\ syntax_file view' = "Packages/User/A.sublime-syntax".
Proof.
  exact (proj2 (C2_user_entries_first (RE := Toy.re) (YAML := Toy.yaml)
                  packages user_settings user_table user_table_built)
           ruby_script [] entry_A [entry_B] eq_refl
           (fun e (H : In e []) => match H with end) eq_refl).
Defined.

(** The script matches the user entry [B] and the host-discovered Ruby
    entry, and the applied syntax is not [B]'s: an earlier user entry
    matches as well. *)
Lemma C2_counterexample :
  ~ user_precedence_as_stated (RE := Toy.re) (YAML := Toy.yaml).
Proof.
  intros H.
  destruct (H packages user_settings user_table ruby_script
              entry_B entry_Ruby user_table_built)
    as (view' & tr & Hrun & Hsyntax);
    [ right; left; reflexivity | left; reflexivity
    | reflexivity | reflexivity | ].
  vm_compute in Hrun. injection Hrun as <- _. discriminate.
Qed.

Lemma C3_witness :
  NewFile.getPartialFirstLine (NewFile.mkSettings [] 5) ruby_script = "#!/us"
  /\ AutoSet.getPartialFirstLine (loaded "plain" None) ruby_script
     = "#!/usr/bin/ruby".
Proof.
  destruct (C3_partial_first_line (RE := Toy.re) (NewFile.mkSettings [] 5)
              (loaded "plain" None) ruby_script)
    as [(Hcut & _ & _) (_ & _ & Hwhole)].
  split.
  - apply Hcut; simpl; lia.
  - apply Hwhole. simpl. lia.
Defined.

Lemma C4_witness :
  AutoSet.compileWorkingScope
    (AutoSet.mkGlobals (RE := Toy.re)
       (AutoSet.mkSettings "(" (-1) all_enabled) None [])
  = (Ok (AutoSet.mkGlobals (AutoSet.mkSettings "(" (-1) all_enabled) None []),
     [LogError (AutoSet.workingScopeErrorMessage "(");
      ErrorMessage (AutoSet.workingScopeErrorMessage "(")]).
Proof.
  exact (proj1 (C4_invalid_working_scope_fails_closed (RE := Toy.re)
                  (AutoSet.mkGlobals (AutoSet.mkSettings "(" (-1) all_enabled)
                     None [])
                  eq_refl)).
Defined.

(** The first resource of [packages_with_broken] does not parse: the
    build raises, and the Ruby resource after it is not reached. *)
Lemma C5_witness :
  NewFile.buildSyntaxMappingsFromSt (RE := Toy.re) (YAML := Toy.yaml)
    packages_with_broken
  = (Raise YAMLError,
     [YamlLoad ("%YAML 1.2" ++ nl ++ "---" ++ nl ++ "name: Broken" ++ nl
                ++ "first_line_match: [")%string]).
Proof.
  exact (proj1 (C5_extractor_failure_aborts_build
                  (RE := Toy.re) (YAML := Toy.yaml)
                  packages_with_broken []
                  ["Packages/Ruby/Ruby.sublime-syntax"]
                  "Packages/Broken/Broken.sublime-syntax" [] [] _ YAMLError
                  eq_refl eq_refl eq_refl)).
Defined.

Lemma C5_counterexample :
  ~ parse_failure_skipped_as_stated (RE := Toy.re) (YAML := Toy.yaml).
Proof.
  intros H.
  destruct (H packages_with_broken "Packages/Broken/Broken.sublime-syntax"
              [YamlLoad ("%YAML 1.2" ++ nl ++ "---" ++ nl ++ "name: Broken"
                         ++ nl ++ "first_line_match: [")%string])
    as (st & tr & Hbuild); [left; reflexivity | reflexivity |].
  vm_compute in Hbuild. discriminate.
Qed.

(** C6 at the failing input: the toggle is on, the view is on the
    working scope, the command is [paste], and no command is run;
    after [paste_and_indent] the applier runs. *)
Example C6_failing_input :
  AutoSet.on_post_text_command (loaded "plain" all_enabled) ruby_script "paste"
  = (Ok ruby_script, [Search plain_regex "text.plain "])
  /\
  fst (AutoSet.on_post_text_command (loaded "plain" all_enabled) ruby_script
         "paste_and_indent")
  = Ok (set_syntax_file ruby_script "Packages/User/A.sublime-syntax").
Proof. split; reflexivity. Qed.



Lemma C8_witness :
  snd entry_B <> []
  /\ NewFile.value user_table
     = user_entries [("Packages/User/A.sublime-syntax", ["^#!"; "("])]
       ++ user_entries [("Packages/User/B.sublime-syntax", ["ruby"; "python"])]
       ++ NewFile.syntaxMappingsSt user_table.
Proof.
  destruct (C8_no_empty_pattern_list (RE := Toy.re) (YAML := Toy.yaml)
              packages user_settings user_table user_table_built)
    as (Hnonempty & Homitted & _).
  split.
  - apply Hnonempty. right; left; reflexivity.
  - apply (Homitted [("Packages/User/A.sublime-syntax", ["^#!"; "("])]
             "Packages/User/Dead.sublime-syntax" ["["]
             [("Packages/User/B.sublime-syntax", ["ruby"; "python"])] eq_refl).
    intros p [<-|[]]. reflexivity.
Defined.

Lemma C9_witness :
  NewFile.findFirstLineMatch (RE := Toy.re) (YAML := Toy.yaml)
    ("  " ++ nl)%string
  = (Raise IndexError, []).
Proof.
  exact (C9_blank_content_raises (RE := Toy.re) (YAML := Toy.yaml)
           ("  " ++ nl)%string eq_refl).
Defined.

Lemma C10_witness :
  List.length (snd entry_Ruby) = 1
  /\ In entry_B (user_entries (NewFile.syntax_mapping user_settings)).
Proof.
  destruct (C10_host_entries_single_pattern (RE := Toy.re) (YAML := Toy.yaml)
              packages user_settings user_table user_table_built)
    as [Hone Huser].
  split.
  - apply Hone. left; reflexivity.
  - apply Huser; [right; left; reflexivity | discriminate].
Defined.

End OnSamples.

(* ================================================================= *)
(** * The syntax resources of the host *)

Section SyntaxResources.
Import Py Sublime Spec Terms.

Lemma string_app_nil_r (s : string) : (s ++ EmptyString)%string = s.
Proof. induction s as [|c s IH]; simpl; [reflexivity | now rewrite IH]. Qed.

Lemma substring_split (k : nat) (s : string) :
  k <= String.length s ->
  (String.substring 0 k s ++ String.substring k (String.length s - k) s)%string
  = s.
Proof.
  revert k; induction s as [|c s IH]; intros [|k] H; simpl in *; try lia.
  - reflexivity.
  - f_equal. apply (substring_0_all (String.length s) s). lia.
  - f_equal. apply (IH k). lia.
Qed.

(** [p[0:d] + p[d:] == p] for an index that is not negative. *)
Lemma slice_join (p : string) (d : Z) :
  (0 <= d)%Z -> (slice p 0 d ++ slice_from p d)%string = p.
Proof.
  intros Hd. unfold slice, slice_from, slice_index.
  destruct (Z.ltb_spec d 0) as [H|_]; [lia|]. simpl.
  rewrite Nat.min_0_r, Nat.sub_0_r. apply substring_split. lia.
Qed.

Lemma rfind_char_from_lower (c : ascii) (s : string) (i : nat) (last : Z) :
  (-1 <= last)%Z -> (-1 <= OsPath.rfind_char_from c s i last)%Z.
Proof.
  revert i last; induction s as [|d s IH]; intros i last H; simpl.
  - assumption.
  - apply IH. destruct (Ascii.eqb d c); lia.
Qed.

Lemma skip_leading_dots_join (p : string) (filenameIndex : Z) (n : nat)
  (dotIndex : Z) (x y : string) :
  (0 <= dotIndex)%Z ->
  OsPath.skip_leading_dots p filenameIndex n dotIndex = Some (x, y) ->
  (x ++ y)%string = p.
Proof.
  intros Hd. revert filenameIndex; induction n as [|n IH];
    intros filenameIndex; simpl; [discriminate|].
  destruct (negb (String.eqb
                    (slice p filenameIndex (filenameIndex + 1)) ".")).
  - intros [= <- <-]. now apply slice_join.
  - apply IH.
Qed.

(** What [os.path.splitext] splits, [+] joins again. *)
Lemma splitext_join (p : string) :
  (fst (OsPath.splitext p) ++ snd (OsPath.splitext p))%string = p.
Proof.
  unfold OsPath.splitext.
  pose proof (rfind_char_from_lower "/"%char p 0 (-1)%Z (Z.le_refl _)) as Hsep.
  fold (OsPath.rfind_char p "/"%char) in Hsep.
  destruct (Z.ltb_spec (OsPath.rfind_char p "/"%char)
              (OsPath.rfind_char p "."%char)) as [H|H].
  - destruct (OsPath.skip_leading_dots p _ _ _) as [[x y]|] eqn:E; simpl.
    + apply skip_leading_dots_join in E; [assumption | lia].
    + apply string_app_nil_r.
  - simpl. apply string_app_nil_r.
Qed.

(** One resource filed in [syntaxGriddle]. *)
Lemma griddle_mem_spec (name : string) (g : list (string * string)) :
  NewFile.griddle_mem name g = true <-> In name (map fst g).
Proof.
  unfold NewFile.griddle_mem. rewrite existsb_exists, in_map_iff. split.
  - intros ([k e] & Hin & Heq). apply String.eqb_eq in Heq. simpl in Heq.
    subst. now exists (name, e).
  - intros ([k e] & Heq & Hin). simpl in Heq. subst.
    exists (name, e). split; [assumption | apply String.eqb_refl].
Qed.

Lemma griddle_fold_shape (xs : list string) (g : list (string * string)) :
  let step := fun (g : list (string * string)) (resource : string) =>
                let '(resourceName, resourceExt) := OsPath.splitext resource in
                if negb (NewFile.griddle_mem resourceName g)
                then g ++ [(resourceName, resourceExt)]
                else g in
  (forall kv, In kv (fold_left step xs g) ->
              In kv g \/ exists r, In r xs /\ kv = OsPath.splitext r)
  /\ (NoDup (map fst g) -> NoDup (map fst (fold_left step xs g)))
  /\ (forall kv, In kv g -> In kv (fold_left step xs g))
  /\ (forall pre r post,
         xs = pre ++ r :: post ->
         ~ In (resource_name r) (map fst g) ->
         (forall q, In q pre -> resource_name q <> resource_name r) ->
         In (OsPath.splitext r) (fold_left step xs g)).
Proof.
  intros step. revert g; induction xs as [|x xs IH]; intros g.
  - simpl. repeat split; auto.
    intros [|q pre] r post H; discriminate.
  - destruct (IH (step g x)) as (I1 & I2 & I3 & I4).
    assert (Hstep : step g x = g /\ In (resource_name x) (map fst g)
                    \/ step g x = g ++ [OsPath.splitext x]
                       /\ ~ In (resource_name x) (map fst g)).
    { unfold step, resource_name.
      destruct (OsPath.splitext x) as [n e]. simpl.
      destruct (NewFile.griddle_mem n g) eqn:E; simpl.
      - left. split; [reflexivity | now apply griddle_mem_spec].
      - right. split; [reflexivity|]. intros H.
        apply griddle_mem_spec in H. congruence. }
    change (fold_left step (x :: xs) g) with (fold_left step xs (step g x)).
    repeat split.
    + intros kv H. destruct (I1 kv H) as [Hg|(r & Hr & ->)].
      * destruct Hstep as [[Hs _]|[Hs _]]; rewrite Hs in Hg; [now left|].
        apply in_app_or in Hg as [Hg|[<-|[]]]; [now left|].
        right. exists x. split; [now left | reflexivity].
      * right. exists r. split; [now right | reflexivity].
    + intros Hnd. apply I2. destruct Hstep as [[Hs _]|[Hs Hnew]]; rewrite Hs;
        [assumption|].
      rewrite map_app. simpl. apply NoDup_app; [assumption | | ].
      * constructor; [intros [] | constructor].
      * intros n Hn [<-|[]]. contradiction.
    + intros kv H. apply I3. destruct Hstep as [[Hs _]|[Hs _]]; rewrite Hs;
        [assumption | apply in_or_app; now left].
    + intros [|q pre] r post Hxs Hfresh Hpre.
      * injection Hxs as -> ->. apply I3.
        destruct Hstep as [[_ Hin]|[Hs _]]; [contradiction|]. rewrite Hs.
        apply in_or_app. right. now left.
      * injection Hxs as -> ->. apply (I4 pre r post eq_refl).
        -- destruct Hstep as [[Hs _]|[Hs _]]; rewrite Hs; [assumption|].
           rewrite map_app. intros H. apply in_app_or in H as [H|[H|[]]];
             [contradiction|].
           apply (Hpre q); [now left | exact H].
        -- intros q' Hq'. apply Hpre. now right.
Qed.

Lemma findSyntaxResources_true (res : Resources) :
  NewFile.findSyntaxResources res true
  = map (fun ne => (fst ne ++ snd ne)%string)
      (fold_left
         (fun (g : list (string * string)) (resource : string) =>
            let '(resourceName, resourceExt) := OsPath.splitext resource in
            if negb (NewFile.griddle_mem resourceName g)
            then g ++ [(resourceName, resourceExt)]
            else g)
         (found res) []).
Proof.
  unfold NewFile.findSyntaxResources, found. simpl.
  now rewrite fold_left_app.
Qed.

Lemma NoDup_map_injective {A B} (f : A -> B) (l : list A) (x y : A) :
  NoDup (map f l) -> In x l -> In y l -> f x = f y -> x = y.
Proof.
  induction l as [|z l IH]; simpl; [intros _ []|].
  intros Hnd Hx Hy Hf. inversion Hnd as [|? ? Hnotin Hnd']; subst.
  destruct Hx as [->|Hx], Hy as [->|Hy].
  - reflexivity.
  - exfalso. apply Hnotin. rewrite Hf. now apply in_map.
  - exfalso. apply Hnotin. rewrite <- Hf. now apply in_map.
  - now apply IH.
Qed.

Lemma griddle_of_found (res : Resources) (kv : string * string) :
  In kv (fold_left
           (fun (g : list (string * string)) (resource : string) =>
              let '(resourceName, resourceExt) := OsPath.splitext resource in
              if negb (NewFile.griddle_mem resourceName g)
              then g ++ [(resourceName, resourceExt)]
              else g)
           (found res) []) ->
  exists r, In r (found res) /\ kv = OsPath.splitext r.
Proof.
  intros H. destruct (griddle_fold_shape (found res) []) as (I1 & _).
  destruct (I1 kv H) as [[]|Hr]. exact Hr.
Qed.

Lemma resources_found_and_distinct (res : Resources) :
  (forall p, In p (NewFile.findSyntaxResources res true) -> In p (found res))
  /\ NoDup (map resource_name (NewFile.findSyntaxResources res true)).
Proof.
  rewrite findSyntaxResources_true. split.
  - intros p Hp. apply in_map_iff in Hp as (kv & <- & Hkv).
    apply griddle_of_found in Hkv as (r & Hr & ->).
    now rewrite splitext_join.
  - rewrite map_map.
    rewrite (map_ext_in _ fst).
    + destruct (griddle_fold_shape (found res) []) as (_ & I2 & _).
      apply I2. constructor.
    + intros kv Hkv. apply griddle_of_found in Hkv as (r & Hr & ->).
      now rewrite splitext_join.
Qed.

(** X1.  With [dropDuplicated], every path that [findSyntaxResources]
    returns is a resource the host reported, and no two returned paths
    have the same name without extension. *)
Theorem X1_resources_found_and_distinct :
  forall res : Resources,
    (forall p, In p (NewFile.findSyntaxResources res true) ->
               In p (found res))
    /\ NoDup (map resource_name (NewFile.findSyntaxResources res true)).
Proof. exact resources_found_and_distinct. Qed.

(** X2.  With [dropDuplicated], the resource kept for a name is the
    first one of that name in priority order ([.sublime-syntax]
    resources before [.tmLanguage] resources): it is returned, and no
    other resource of that name is. *)
Theorem X2_first_resource_of_a_name_is_kept :
  forall (res : Resources) (pre post : list string) (r : string),
    found res = pre ++ r :: post ->
    (forall q, In q pre -> resource_name q <> resource_name r) ->
    In r (NewFile.findSyntaxResources res true)
    /\ forall r', In r' (NewFile.findSyntaxResources res true) ->
                  resource_name r' = resource_name r -> r' = r.
Proof.
  intros res pre post r Hfound Hpre.
  assert (Hin : In r (NewFile.findSyntaxResources res true)).
  { rewrite findSyntaxResources_true.
    destruct (griddle_fold_shape (found res) []) as (_ & _ & _ & I4).
    apply in_map_iff. exists (OsPath.splitext r).
    split; [apply splitext_join|].
    apply (I4 pre r post Hfound); [intros [] | assumption]. }
  split; [assumption|].
  intros r' Hr' Hname.
  destruct (resources_found_and_distinct res) as [_ Hnd].
  exact (NoDup_map_injective resource_name _ r' r Hnd Hr' Hin Hname).
Qed.

End SyntaxResources.

(* ================================================================= *)
(** * The extractor for the markup format *)

Section XmlExtractor.
Import Py Sublime Spec Terms.

Lemma find_from_first (sub s : string) (n : nat) :
  occurs_at sub s n ->
  (forall m, m < n -> ~ occurs_at sub s m) ->
  find_from sub s 0 = Some n.
Proof.
  intros Hocc Hmin. destruct (find_from sub s 0) as [k|] eqn:E.
  - apply find_from_some in E as (_ & Hk & Hkmin).
    rewrite Nat.sub_0_r in Hk, Hkmin. f_equal.
    destruct (Nat.lt_trichotomy k n) as [H|[H|H]]; [|assumption|].
    + exfalso. exact (Hmin k H Hk).
    + exfalso. exact (Hkmin n H Hocc).
  - exfalso. apply find_from_none in E. apply E. now exists n.
Qed.

Lemma substring_drop (pre rest : string) :
  String.substring (String.length pre)
    (String.length (pre ++ rest) - String.length pre) (pre ++ rest)
  = rest.
Proof.
  induction pre as [|c pre IH]; simpl.
  - rewrite Nat.sub_0_r. now apply substring_0_all.
  - exact IH.
Qed.

Lemma slice_from_app (pre rest : string) :
  slice_from (pre ++ rest) (Z.of_nat (String.length pre)) = rest.
Proof.
  unfold slice_from, slice_index.
  destruct (Z.ltb_spec (Z.of_nat (String.length pre)) 0) as [H|_]; [lia|].
  rewrite Nat2Z.id, Nat.min_r by (rewrite string_app_length; lia).
  apply substring_drop.
Qed.

Lemma strip_prefix_app (p r : string) :
  NewFile.strip_prefix p (p ++ r) = Some r.
Proof.
  unfold NewFile.strip_prefix.
  assert (H : String.prefix p (p ++ r) = true)
    by (apply prefix_spec; now exists r).
  now rewrite H, substring_drop.
Qed.

Lemma strip_prefix_some (p s r : string) :
  NewFile.strip_prefix p s = Some r -> s = (p ++ r)%string.
Proof.
  unfold NewFile.strip_prefix.
  destruct (String.prefix p s) eqn:E; [|discriminate].
  apply prefix_spec in E as [post ->]. rewrite substring_drop.
  now intros [= ->].
Qed.

Lemma all_space_app (s t : string) :
  all_space (s ++ t) = all_space s && all_space t.
Proof.
  unfold all_space. induction s as [|c s IH]; simpl; [reflexivity|].
  now rewrite IH, andb_assoc.
Qed.

Lemma lstrip_app (ws r : string) :
  all_space ws = true -> lstrip (ws ++ r) = lstrip r.
Proof.
  unfold all_space. induction ws as [|c ws IH]; simpl; [reflexivity|].
  intros H. apply andb_true_iff in H as [Hc Hws]. rewrite Hc. now apply IH.
Qed.

Lemma lstrip_split (s : string) :
  exists ws, all_space ws = true /\ s = (ws ++ lstrip s)%string.
Proof.
  induction s as [|c s (ws & Hws & IH)]; simpl.
  - now exists EmptyString.
  - destruct (isspace c) eqn:E.
    + exists (String c ws). split.
      * unfold all_space in *. simpl. now rewrite E.
      * simpl. now rewrite <- IH.
    + now exists EmptyString.
Qed.

Lemma search_firstLineMatch_eq (s : string) :
  NewFile.search_firstLineMatch s =
  match NewFile.match_firstLineMatch_here s with
  | Some g => Some g
  | None =>
      match s with
      | EmptyString => None
      | String _ s' => NewFile.search_firstLineMatch s'
      end
  end.
Proof. destruct s; reflexivity. Qed.

Lemma search_firstLineMatch_some (s g : string) :
  NewFile.search_firstLineMatch s = Some g ->
  exists pre s', s = (pre ++ s')%string
                 /\ NewFile.match_firstLineMatch_here s' = Some g.
Proof.
  induction s as [|c s IH]; rewrite search_firstLineMatch_eq.
  - destruct (NewFile.match_firstLineMatch_here EmptyString) eqn:E;
      [|discriminate].
    intros [= ->]. now exists EmptyString, EmptyString.
  - destruct (NewFile.match_firstLineMatch_here (String c s)) eqn:E.
    + intros [= ->]. now exists EmptyString, (String c s).
    + intros H. destruct (IH H) as (pre & s' & -> & Hs').
      now exists (String c pre), s'.
Qed.

Lemma occurs_at_app_l (sub s t : string) (m : nat) :
  occurs_at sub s m -> occurs_at sub (s ++ t) m.
Proof.
  intros (p & q & -> & Hm). exists p, (q ++ t)%string.
  split; [|assumption]. now rewrite !string_app_assoc.
Qed.

Lemma occurs_at_bound (sub s : string) (m : nat) :
  occurs_at sub s m -> m + String.length sub <= String.length s.
Proof.
  intros (p & q & -> & <-). rewrite !string_app_length. lia.
Qed.

(** What [match_firstLineMatch_here] returns stands between the tags. *)
Lemma match_firstLineMatch_here_some (s g : string) :
  NewFile.match_firstLineMatch_here s = Some g ->
  exists ws post,
    s = ("firstLineMatch</key>" ++ ws ++ "<string>" ++ g ++ "</string>"
         ++ post)%string
    /\ all_space ws = true /\ ~ occurs "</string>" g.
Proof.
  unfold NewFile.match_firstLineMatch_here.
  destruct (NewFile.strip_prefix "firstLineMatch</key>" s) as [rest|] eqn:E1;
    [|discriminate].
  destruct (NewFile.strip_prefix "<string>" (lstrip rest)) as [body|] eqn:E2;
    [|discriminate].
  destruct (find_from "</string>" body 0) as [n|] eqn:E3; [|discriminate].
  intros [= <-].
  apply strip_prefix_some in E1, E2.
  destruct (lstrip_split rest) as (ws & Hws & Hrest).
  apply find_from_some in E3 as (_ & (p & q & Hbody & Hn) & Hmin).
  rewrite Nat.sub_0_r in Hn, Hmin.
  assert (Hg : String.substring 0 n body = p)
    by (rewrite Hbody, <- Hn; apply substring_0_app).
  rewrite Hg. exists ws, q. repeat split.
  - rewrite E1, Hrest, E2, Hbody. reflexivity.
  - assumption.
  - intros [m Hm]. apply (Hmin m).
    + apply occurs_at_bound in Hm. simpl in Hm. lia.
    + rewrite Hbody. now apply occurs_at_app_l.
Qed.

Lemma lacks_char_no_occurrence (c : ascii) (sub g rest : string) (m : nat) :
  lacks_char c g = true -> m < String.length g ->
  ~ occurs_at (String c sub) (g ++ rest) m.
Proof.
  unfold lacks_char. revert m; induction g as [|d g IH]; intros m Hl Hm;
    simpl in *; [lia|].
  apply andb_true_iff in Hl as [Hd Hg].
  intros (p & q & Heq & Hp). destruct p as [|d' p]; simpl in *.
  - injection Heq as -> _. rewrite Ascii.eqb_refl in Hd. discriminate.
  - injection Heq as _ Heq. subst m.
    apply (IH (String.length p) Hg); [lia|]. now exists p, q.
Qed.

(** X3.  For a content whose first [firstLineMatch] starts a key that is
    followed, after white space only, by a [<string>] element whose
    text [g] holds no [<], [findFirstLineMatchXml] returns [g]. *)
Theorem X3_xml_extracts_declared_pattern :
  forall pre ws g post : string,
    let content :=
      (pre ++ "firstLineMatch</key>" ++ ws ++ "<string>" ++ g
       ++ "</string>" ++ post)%string in
    (forall m, m < String.length pre ->
               ~ occurs_at "firstLineMatch" content m) ->
    all_space ws = true ->
    lacks_char "<"%char g = true ->
    NewFile.findFirstLineMatchXml content = PStr g.
Proof.
  intros pre ws g post content Hfirst Hws Hg.
  set (rest := ("firstLineMatch</key>" ++ ws ++ "<string>" ++ g
                ++ "</string>" ++ post)%string).
  assert (Hfind : find_from "firstLineMatch" content 0
                  = Some (String.length pre)).
  { apply find_from_first; [|assumption].
    exists pre, ("</key>" ++ ws ++ "<string>" ++ g ++ "</string>" ++ post)%string.
    split; reflexivity. }
  unfold NewFile.findFirstLineMatchXml, find. rewrite Hfind.
  destruct (Z.eqb_spec (Z.of_nat (String.length pre)) (-1)) as [H|_]; [lia|].
  change content with (pre ++ rest)%string. rewrite slice_from_app.
  rewrite search_firstLineMatch_eq.
  unfold NewFile.match_firstLineMatch_here, rest.
  rewrite strip_prefix_app, lstrip_app by assumption.
  change (lstrip ("<string>" ++ g ++ "</string>" ++ post))
    with ("<string>" ++ g ++ "</string>" ++ post)%string.
  rewrite strip_prefix_app.
  rewrite (find_from_first "</string>" _ (String.length g)).
  - now rewrite substring_0_app.
  - now exists g, post.
  - intros m Hm. now apply lacks_char_no_occurrence.
Qed.

(** X4.  [findFirstLineMatchXml] returns [None] for a content without
    the literal [firstLineMatch]; and a string it returns is the text
    of a [<string>] element that follows a [firstLineMatch] key after
    white space only, up to the first closing tag. *)
Theorem X4_xml_result_is_declared :
  forall content : string,
    (~ occurs "firstLineMatch" content ->
     NewFile.findFirstLineMatchXml content = PNone)
    /\
    (forall g, NewFile.findFirstLineMatchXml content = PStr g ->
       exists pre ws post,
         content = (pre ++ "firstLineMatch</key>" ++ ws ++ "<string>" ++ g
                    ++ "</string>" ++ post)%string
         /\ all_space ws = true /\ ~ occurs "</string>" g).
Proof.
  intros content. unfold NewFile.findFirstLineMatchXml. split.
  - intros H. apply find_absent_iff in H. now rewrite H.
  - intros g. destruct (find content "firstLineMatch" =? -1)%Z eqn:E;
      [discriminate|].
    apply find_nonneg in E as (k & Hk & ->).
    apply find_from_some in Hk as (_ & (p0 & q0 & Hc & Hlen) & _).
    rewrite Nat.sub_0_r in Hlen.
    rewrite Hc at 1. rewrite <- Hlen, slice_from_app.
    destruct (NewFile.search_firstLineMatch ("firstLineMatch" ++ q0))
      as [g'|] eqn:Es; [|discriminate].
    intros [= ->].
    apply search_firstLineMatch_some in Es as (pre2 & s' & Hs & Hhere).
    apply match_firstLineMatch_here_some in Hhere as (ws & post & -> & Hws & Hg).
    exists (p0 ++ pre2)%string, ws, post. repeat split; try assumption.
    rewrite Hc, Hs. now rewrite string_app_assoc.
Qed.

End XmlExtractor.

(* ================================================================= *)
(** * More on building the mapping table *)

Section BuildMore.
Import Py Sublime Spec Terms.
Context {RE : ReLib} {YAML : YamlLib}.

Lemma compile_step_trace (syntaxFile p : string) (acc : list Regex) :
  try_except
    (bind (NewFile.py_re_compile (PStr p)) (fun r => ret (acc ++ [r])))
    (bind (emit (LogError ("regex compilation failed in user settings "
                           ++ syntaxFile ++ ": " ++ p)%string))
          (fun _ => ret acc))
  = (Ok (acc ++ compiled [p]),
     map LogError (map (user_error syntaxFile) (filter compile_fails [p]))).
Proof.
  unfold NewFile.py_re_compile, compile_fails, user_error. simpl.
  destruct (re_compile p); simpl; [reflexivity | now rewrite app_nil_r].
Qed.

Lemma compile_loop_trace (syntaxFile : string) (ps : list string)
  (acc : list Regex) :
  for_each ps
    (fun firstLineMatch firstLineMatchRegexes =>
       try_except
         (bind (NewFile.py_re_compile (PStr firstLineMatch))
               (fun r => ret (firstLineMatchRegexes ++ [r])))
         (bind (emit (LogError ("regex compilation failed in user settings "
                                ++ syntaxFile ++ ": " ++ firstLineMatch)%string))
               (fun _ => ret firstLineMatchRegexes)))
    acc
  = (Ok (acc ++ compiled ps),
     map LogError (map (user_error syntaxFile) (filter compile_fails ps))).
Proof.
  revert acc; induction ps as [|p ps IH]; intros acc.
  - simpl. now rewrite app_nil_r.
  - cbn [for_each]. rewrite compile_step_trace. cbn [bind]. rewrite IH.
    rewrite (compiled_cons p ps), app_assoc.
    change (p :: ps) with ([p] ++ ps).
    now rewrite filter_app, !map_app.
Qed.

Lemma addUserMapping_trace (syntaxFile : string) (ps : list string)
  (acc : list Entry) :
  NewFile.addUserMapping (syntaxFile, ps) acc
  = (Ok (acc ++ user_entries [(syntaxFile, ps)]),
     map LogError (user_errors [(syntaxFile, ps)])).
Proof.
  unfold NewFile.addUserMapping, NewFile.compileFirstLineMatches.
  rewrite compile_loop_trace. cbn [bind user_entries user_errors flat_map].
  cbn [fst snd app]. rewrite !app_nil_r.
  destruct (compiled ps) as [|r rs]; simpl; now rewrite !app_nil_r.
Qed.

Lemma user_errors_cons (item : string * list string)
  (items : list (string * list string)) :
  user_errors (item :: items) = user_errors [item] ++ user_errors items.
Proof. unfold user_errors. simpl. now rewrite app_nil_r. Qed.

Lemma user_loop_trace (items : list (string * list string))
  (acc : list Entry) :
  for_each items NewFile.addUserMapping acc
  = (Ok (acc ++ user_entries items), map LogError (user_errors items)).
Proof.
  revert acc; induction items as [|[f ps] items IH]; intros acc.
  - simpl. now rewrite app_nil_r.
  - cbn [for_each]. rewrite addUserMapping_trace. cbn [bind]. rewrite IH.
    rewrite (user_entries_cons (f, ps) items), (user_errors_cons (f, ps) items).
    now rewrite app_assoc, !map_app.
Qed.

Lemma buildFromUser_typed (settings : NewFile.Settings) :
  NewFile.buildSyntaxMappingsFromUser settings
  = buildFromUser (Some (NewFile.syntax_mapping settings)).
Proof.
  unfold buildFromUser, NewFile.buildSyntaxMappingsFromUser. simpl.
  now destruct (for_each (NewFile.syntax_mapping settings)
                  NewFile.addUserMapping []).
Qed.

Lemma buildFromUser_some (items : list (string * list string)) :
  buildFromUser (Some items)
  = (Ok (user_entries items), map LogError (user_errors items)).
Proof.
  unfold buildFromUser. simpl. now rewrite user_loop_trace.
Qed.

(** X5.  When [syntax_mapping] is unset or null,
    [buildSyntaxMappingsFromUser] raises [AttributeError] and logs
    nothing.  When it is a mapping from syntax files to lists of
    pattern strings, the function returns the user-defined entries and
    logs one error for every pattern string that does not compile, in
    configuration order, each naming the syntax file and the pattern;
    it logs nothing else. *)
Theorem X5_user_build_logs_each_failure :
  buildFromUser None = (Raise AttributeError, [])
  /\ (forall items,
        buildFromUser (Some items)
        = (Ok (user_entries items), map LogError (user_errors items)))
  /\ (forall settings : NewFile.Settings,
        NewFile.buildSyntaxMappingsFromUser settings
        = buildFromUser (Some (NewFile.syntax_mapping settings))).
Proof.
  split; [reflexivity|]. split.
  - exact buildFromUser_some.
  - exact buildFromUser_typed.
Qed.

Lemma addSyntaxResource_returns (res : Resources) (f : string)
  (acc : list Entry) (v : PyVal) (t : list NewFile.Ev) :
  NewFile.findFirstLineMatch (load_resource res f) = (Ok v, t) ->
  exists out tr, NewFile.addSyntaxResource res f acc = (Ok out, tr).
Proof.
  intros H. unfold NewFile.addSyntaxResource. rewrite H. cbn [bind].
  destruct v as [|p|x|xs|items]; simpl; try (eexists _, _; reflexivity).
  destruct (re_compile p); simpl; eexists _, _; reflexivity.
Qed.

Lemma addSyntaxResource_raises (res : Resources) (f : string)
  (acc : list Entry) (e : exn) (t : list NewFile.Ev) :
  NewFile.findFirstLineMatch (load_resource res f) = (Raise e, t) ->
  NewFile.addSyntaxResource res f acc = (Raise e, t).
Proof. intros H. unfold NewFile.addSyntaxResource. now rewrite H. Qed.

Lemma host_loop_returns (res : Resources) (files : list string)
  (acc : list Entry) :
  (forall f, In f files ->
     exists v t, NewFile.findFirstLineMatch (load_resource res f) = (Ok v, t)) ->
  exists out tr,
    for_each files (NewFile.addSyntaxResource res) acc = (Ok out, tr).
Proof.
  revert acc; induction files as [|f files IH]; intros acc H.
  - now exists acc, [].
  - destruct (H f (or_introl eq_refl)) as (v & t & Hf).
    destruct (addSyntaxResource_returns res f acc v t Hf) as (acc1 & t1 & H1).
    destruct (IH acc1 (fun f' Hf' => H f' (or_intror Hf'))) as (out & t2 & H2).
    exists out, (t1 ++ t2). cbn [for_each]. rewrite H1. cbn [bind].
    now rewrite H2.
Qed.

Lemma host_loop_returned (res : Resources) (files : list string)
  (acc out : list Entry) (tr : list NewFile.Ev) :
  for_each files (NewFile.addSyntaxResource res) acc = (Ok out, tr) ->
  forall f, In f files ->
    exists v t, NewFile.findFirstLineMatch (load_resource res f) = (Ok v, t).
Proof.
  revert acc tr; induction files as [|f files IH]; intros acc tr H f' Hf';
    [destruct Hf'|].
  cbn [for_each] in H.
  destruct (NewFile.findFirstLineMatch (load_resource res f))
    as [[v|e] t] eqn:Ef.
  - destruct Hf' as [<-|Hf']; [now exists v, t|].
    destruct (NewFile.addSyntaxResource res f acc) as [[acc1|e] t1];
      cbn [bind] in H; [|discriminate].
    destruct (for_each files (NewFile.addSyntaxResource res) acc1)
      as [[o|e] t2] eqn:E2; [|discriminate].
    injection H as -> _. exact (IH acc1 t2 E2 f' Hf').
  - rewrite (addSyntaxResource_raises res f acc e t Ef) in H. discriminate.
Qed.

(** X6.  [buildSyntaxMappingsFromSt] returns a list exactly when the
    extractor returns for every resource of [findSyntaxResources]; the
    list is then the host-discovered entries in discovery order. *)
Theorem X6_host_build_returns_iff_extractor_returns :
  forall res : Resources,
    ((exists st tr, NewFile.buildSyntaxMappingsFromSt res = (Ok st, tr))
     <->
     (forall f, In f (NewFile.findSyntaxResources res true) ->
        exists v t,
          NewFile.findFirstLineMatch (load_resource res f) = (Ok v, t)))
    /\
    (forall st tr, NewFile.buildSyntaxMappingsFromSt res = (Ok st, tr) ->
       st = host_entries res (NewFile.findSyntaxResources res true)).
Proof.
  intros res. split; [split|].
  - intros (st & tr & H). exact (host_loop_returned res _ [] st tr H).
  - intros H. exact (host_loop_returns res _ [] H).
  - intros st tr H. now apply buildSyntaxMappingsFromSt_ok in H.
Qed.

Lemma built_host_build (res : Resources) (settings : NewFile.Settings)
  (self : NewFile.SyntaxMappings) :
  built res settings self ->
  exists tr,
    NewFile.buildSyntaxMappingsFromSt res
    = (Ok (host_entries res (NewFile.findSyntaxResources res true)), tr).
Proof.
  induction 1 as [settings self tr Hinit|? ? ? ? ? ? IH ?]; [|exact IH].
  apply init_ok in Hinit as (st & t0 & Hst & _).
  pose proof (buildSyntaxMappingsFromSt_ok res st t0 Hst) as <-.
  now exists t0.
Qed.

(** X7.  On a table of the running plugin: when [syntax_mapping] is
    unset or null, [rebuildSyntaxMappings] raises [AttributeError]
    before it assigns a table; when it is a mapping from syntax files
    to lists of pattern strings, [rebuildSyntaxMappings] keeps the
    cached host-discovered list, the table it makes is the one the
    constructor makes for that mapping, and rebuilding again with it
    changes nothing. *)
Theorem X7_rebuild_equals_fresh_table :
  forall (res : Resources) (settings0 : NewFile.Settings)
         (self : NewFile.SyntaxMappings),
    built res settings0 self ->
    rebuild None self = (Raise AttributeError, [])
    /\ (forall items,
        exists self' tr tr',
          rebuild (Some items) self = (Ok self', tr)
          /\ NewFile.syntaxMappingsSt self' = NewFile.syntaxMappingsSt self
          /\ construct res (Some items) = (Ok self', tr')
          /\ rebuild (Some items) self' = (Ok self', tr))
    /\ (forall s : NewFile.Settings,
          NewFile.rebuildSyntaxMappings s self
          = rebuild (Some (NewFile.syntax_mapping s)) self).
Proof.
  intros res settings0 self Hb.
  destruct (built_shape res settings0 self Hb) as [Hst _].
  destruct (built_host_build res settings0 self Hb) as [t0 Hbuild].
  split; [reflexivity|]. split.
  - intros items. unfold construct, rebuild.
    rewrite Hbuild, buildFromUser_some. cbn [bind ret].
    cbn [NewFile.syntaxMappingsSt]. rewrite Hst.
    eexists _, _, _. repeat split.
  - intros s. unfold NewFile.rebuildSyntaxMappings, rebuild.
    now rewrite buildFromUser_typed.
Qed.

End BuildMore.

(* ================================================================= *)
(** * What the applier does to a view *)

Section Applier.
Import Py Sublime Spec Terms.
Context {RE : ReLib}.

Lemma existsb_false {A} (f : A -> bool) (xs : list A) :
  existsb f xs = false -> forall x, In x xs -> f x = false.
Proof.
  intros H x Hx. destruct (f x) eqn:E; [|reflexivity].
  assert (existsb f xs = true) by (apply existsb_exists; now exists x).
  congruence.
Qed.

(** The outcome of a scan does not depend on the view scanned for. *)
Lemma scan_shape (line : string) (mappings : list Entry) :
  exists tr,
    ((forall e, In e mappings -> entry_matches line e = false)
     /\ forall v, NewFile.scanMappings line mappings v = (Ok v, tr))
    \/ (exists e, In e mappings /\ entry_matches line e = true
                  /\ forall v, NewFile.scanMappings line mappings v
                               = (Ok (set_syntax_file v (fst e)), tr)).
Proof.
  destruct (existsb (entry_matches line) mappings) eqn:E.
  - apply first_hit in E as (pre & [f rs] & post & -> & Hpre & He).
    pose proof He as He'. unfold entry_matches in He'. simpl in He'.
    apply first_hit in He' as (rs1 & r & rs2 & -> & Hmiss & Hhit).
    eexists. right. exists (f, rs1 ++ r :: rs2). repeat split.
    + apply in_or_app. right. now left.
    + assumption.
    + intros v. now apply scanMappings_hit.
  - eexists. left. split.
    + now apply existsb_false.
    + intros v. apply scanMappings_miss. now apply existsb_false.
Qed.

Lemma set_same_syntax_file (w : View) (f : string) :
  syntax_file w = f -> set_syntax_file w f = w.
Proof. destruct w. simpl. now intros ->. Qed.

(** One run of a scan, and a further run on a view with the same
    buffer and the syntax file the first run left. *)
Lemma scan_once (line : string) (mappings : list Entry) (view view' : View)
  (tr : list (Event Regex)) :
  NewFile.scanMappings line mappings view = (Ok view', tr) ->
  (view' = view
   \/ exists e, In e mappings /\ entry_matches line e = true
                /\ view' = set_syntax_file view (fst e))
  /\ forall w, syntax_file w = syntax_file view' ->
               NewFile.scanMappings line mappings w = (Ok w, tr).
Proof.
  destruct (scan_shape line mappings)
    as [tr0 [[Hmiss Hscan]|(e & He & Hm & Hscan)]];
    rewrite Hscan; intros [= <- <-].
  - split; [now left|]. intros w _. apply Hscan.
  - split; [right; now exists e|].
    intros w Hw. rewrite Hscan. now rewrite set_same_syntax_file.
Qed.

Lemma getPartialFirstLine_same_buffer (N : Z) (v w : View) :
  buffer w = buffer v ->
  substr w (if (0 <=? N)%Z
            then mkRegion 0 (Z.min (Region_end (line0 w)) N)
            else line0 w)
  = substr v (if (0 <=? N)%Z
              then mkRegion 0 (Z.min (Region_end (line0 v)) N)
              else line0 v).
Proof. intros Hb. unfold substr, line0. now rewrite Hb. Qed.

(** X8.  When a run of the applier of either variant returns, the view
    it returns is the view it was given or that view after
    [set_syntax_file] with the identifier of a table entry that has a
    pattern found in the string used for matching; and a further run,
    on a view with the same buffer and the syntax file the first run
    left, returns that view as it is after the same searches. *)
Theorem X8_applier_sets_a_matching_syntax_once :
  forall (g : AutoSet.Globals) (settings : NewFile.Settings)
         (self : NewFile.SyntaxMappings) (view : View),
    (forall view' tr,
        AutoSet.run g view = (Ok view', tr) ->
        (view' = view
         \/ exists e, In e (AutoSet.syntaxMappings g)
                      /\ entry_matches (AutoSet.getPartialFirstLine g view) e
                         = true
                      /\ view' = set_syntax_file view (fst e))
        /\ forall w, buffer w = buffer view ->
                     syntax_file w = syntax_file view' ->
                     AutoSet.run g w = (Ok w, tr))
    /\
    (forall view' tr,
        NewFile.matchAndSetSyntax settings self view = (Ok view', tr) ->
        (view' = view
         \/ exists e, In e (NewFile.value self)
                      /\ entry_matches
                           (NewFile.getPartialFirstLine settings view) e = true
                      /\ view' = set_syntax_file view (fst e))
        /\ forall w, buffer w = buffer view ->
                     syntax_file w = syntax_file view' ->
                     NewFile.matchAndSetSyntax settings self w = (Ok w, tr)).
Proof.
  intros g settings self view. split; intros view' tr Hrun.
  - unfold AutoSet.run in Hrun. rewrite scanMappings_same in Hrun.
    apply scan_once in Hrun as [Hout Hagain]. split; [exact Hout|].
    intros w Hb Hs. unfold AutoSet.run, AutoSet.getPartialFirstLine.
    rewrite scanMappings_same, (getPartialFirstLine_same_buffer _ view w Hb).
    now apply Hagain.
  - unfold NewFile.matchAndSetSyntax in Hrun.
    apply scan_once in Hrun as [Hout Hagain]. split; [exact Hout|].
    intros w Hb Hs. unfold NewFile.matchAndSetSyntax,
      NewFile.getPartialFirstLine.
    rewrite (getPartialFirstLine_same_buffer _ view w Hb).
    now apply Hagain.
Qed.

Lemma take_prefix (k : nat) (s : string) :
  exists rest, s = (take k s ++ rest)%string.
Proof.
  unfold take. revert k; induction s as [|c s IH]; intros [|k]; simpl.
  - now exists EmptyString.
  - now exists EmptyString.
  - now exists (String c s).
  - destruct (IH k) as [rest Hrest]. exists rest. now rewrite <- Hrest.
Qed.

Lemma take_length (k : nat) (s : string) : String.length (take k s) <= k.
Proof.
  unfold take. revert k; induction s as [|c s IH]; intros [|k]; simpl;
    try lia.
  specialize (IH k). lia.
Qed.

Lemma first_line_prefix (s : string) :
  exists rest, s = (first_line s ++ rest)%string.
Proof.
  induction s as [|c s [rest IH]]; simpl.
  - now exists EmptyString.
  - destruct (Ascii.eqb c (ascii_of_nat 10)).
    + now exists (String c s).
    + exists rest. simpl. now rewrite <- IH.
Qed.

Lemma first_line_lacks_newline (s : string) :
  lacks_char (ascii_of_nat 10) (first_line s) = true.
Proof.
  unfold lacks_char. induction s as [|c s IH]; simpl; [reflexivity|].
  destruct (Ascii.eqb c (ascii_of_nat 10)) eqn:E; simpl; [reflexivity|].
  now rewrite E, IH.
Qed.

Lemma take_lacks_char (c : ascii) (k : nat) (s : string) :
  lacks_char c s = true -> lacks_char c (take k s) = true.
Proof.
  unfold lacks_char, take. revert k; induction s as [|d s IH]; intros [|k];
    simpl; try reflexivity.
  intros H. apply andb_true_iff in H as [Hd Hs]. now rewrite Hd, IH.
Qed.

Lemma partial_first_line_bounds (view : View) (N : Z) :
  let used :=
    substr view (if (0 <=? N)%Z
                 then mkRegion 0 (Z.min (Region_end (line0 view)) N)
                 else line0 view) in
  (exists rest, buffer view = (used ++ rest)%string)
  /\ lacks_char (ascii_of_nat 10) used = true
  /\ ((0 <= N)%Z -> (Z.of_nat (String.length used) <= N)%Z).
Proof.
  cbv zeta. destruct (first_line_prefix (buffer view)) as [rest Hrest].
  destruct (Z.leb_spec 0 N) as [HN|HN].
  - rewrite substr_bounded by assumption. repeat split.
    + destruct (take_prefix (Z.to_nat N) (first_line (buffer view)))
        as [rest' Hrest'].
      exists (rest' ++ rest)%string.
      rewrite <- string_app_assoc, <- Hrest'. exact Hrest.
    + apply take_lacks_char, first_line_lacks_newline.
    + intros _. pose proof (take_length (Z.to_nat N) (first_line (buffer view))).
      lia.
  - rewrite substr_line0. repeat split.
    + now exists rest.
    + apply first_line_lacks_newline.
    + lia.
Qed.

(** X14.  The string either variant matches against is a prefix of the
    buffer that holds no newline, and it has at most
    [first_line_length_max] characters when that setting is not
    negative: no pattern sees text beyond the first line or beyond the
    bound. *)
Theorem X14_matched_string_is_bounded :
  forall (settings : NewFile.Settings) (g : AutoSet.Globals) (view : View),
    ((exists rest,
         buffer view
         = (NewFile.getPartialFirstLine settings view ++ rest)%string)
     /\ lacks_char (ascii_of_nat 10)
          (NewFile.getPartialFirstLine settings view) = true
     /\ ((0 <= NewFile.first_line_length_max settings)%Z ->
         (Z.of_nat (String.length (NewFile.getPartialFirstLine settings view))
          <= NewFile.first_line_length_max settings)%Z))
    /\
    ((exists rest,
         buffer view = (AutoSet.getPartialFirstLine g view ++ rest)%string)
     /\ lacks_char (ascii_of_nat 10) (AutoSet.getPartialFirstLine g view) = true
     /\ ((0 <= AutoSet.first_line_length_max (AutoSet.settings g))%Z ->
         (Z.of_nat (String.length (AutoSet.getPartialFirstLine g view))
          <= AutoSet.first_line_length_max (AutoSet.settings g))%Z)).
Proof.
  intros settings g view. split; apply partial_first_line_bounds.
Qed.

(** X13.  Unless there is exactly one cursor, on one of the first two
    rows, and the stripped scope of point 0 is [text.plain],
    [on_modified_async] of [AutoSetNewFileSyntax.py] returns before it
    reads the settings or the table: the view is left as it is and
    nothing is searched ([view.sel()[0]] is read only after the
    one-cursor check).  Otherwise it does what [matchAndSetSyntax]
    does. *)
Theorem X13_new_file_modified_guards :
  forall (settings : NewFile.Settings) (self : NewFile.SyntaxMappings)
         (view : View),
    (new_file_guards view = false ->
     NewFile.on_modified_async settings self view = (Ok view, []))
    /\ (new_file_guards view = true ->
        NewFile.on_modified_async settings self view
        = NewFile.matchAndSetSyntax settings self view).
Proof.
  intros settings self view.
  assert (Hcases :
            (new_file_guards view = false
             /\ NewFile.on_modified_async settings self view = (Ok view, []))
            \/ (new_file_guards view = true
                /\ NewFile.on_modified_async settings self view
                   = NewFile.matchAndSetSyntax settings self view)).
  { unfold NewFile.on_modified_async, new_file_guards, NewFile.sel0.
    destruct (sel view) as [|cursor [|c2 rest]]; simpl; auto.
    rewrite (Z.leb_antisym 1 (row view (a cursor))).
    destruct (1 <? row view (a cursor))%Z; simpl; auto.
    destruct (String.eqb (strip (scope_name0 view)) "text.plain"); simpl; auto.
    right. split; [reflexivity|].
    now destruct (NewFile.matchAndSetSyntax settings self view). }
  split.
  - intros H. destruct Hcases as [[_ ->]|[H' _]]; [reflexivity | congruence].
  - intros H. destruct Hcases as [[H' _]|[_ ->]]; [congruence | reflexivity].
Qed.

End Applier.

(* ================================================================= *)
(** * Documents that are no mapping *)

Section YamlDocuments.
Import Py Sublime Spec Terms.
Local Open Scope py_scope.
Context {RE : ReLib} {YAML : YamlLib}.

Lemma yaml_after_cut (content : string) :
  exists t,
    cut_at_first "contexts:" content t
    /\ (occurs "first_line_match" t ->
        NewFile.findFirstLineMatchYaml content
        = (emit (YamlLoad t) ;;;
           yamlDict <- lift (yaml_load t) ;;
           present <- lift (py_in "first_line_match" yamlDict) ;;
           if present then lift (py_getitem yamlDict "first_line_match")
           else ret PNone)).
Proof.
  pose proof (yaml_cut content) as Hcut. cbv zeta in Hcut.
  unfold NewFile.findFirstLineMatchYaml.
  set (t := if negb (find content "contexts:" =? -1)%Z
            then slice content 0 (find content "contexts:")
            else content) in *.
  exists t. split; [exact Hcut|]. intros Hocc.
  destruct (find t "first_line_match" =? -1)%Z eqn:E; [|reflexivity].
  apply find_absent_iff in E. contradiction.
Qed.

(** X12.  When the cut text holds [first_line_match] and the parser
    does not return a mapping, [findFirstLineMatchYaml] behaves as
    follows: an exception of the parser is passed on; [None] (an empty
    document) and a scalar that is no string raise [TypeError]; a
    string or a list raises [TypeError] when it contains
    [first_line_match] and gives [None] when it does not. *)
Theorem X12_yaml_document_that_is_no_mapping :
  forall content : string,
  exists t : string,
    cut_at_first "contexts:" content t
    /\ (occurs "first_line_match" t ->
        (forall e, yaml_load t = Raise e ->
           NewFile.findFirstLineMatchYaml content = (Raise e, [YamlLoad t]))
        /\ (yaml_load t = Ok PNone ->
            NewFile.findFirstLineMatchYaml content
            = (Raise TypeError, [YamlLoad t]))
        /\ (forall x, yaml_load t = Ok (PScalar x) ->
              NewFile.findFirstLineMatchYaml content
              = (Raise TypeError, [YamlLoad t]))
        /\ (forall s, yaml_load t = Ok (PStr s) ->
              NewFile.findFirstLineMatchYaml content
              = (if contains s "first_line_match"
                 then Raise TypeError else Ok PNone,
                 [YamlLoad t]))
        /\ (forall xs, yaml_load t = Ok (PList xs) ->
              NewFile.findFirstLineMatchYaml content
              = (if existsb (is_key "first_line_match") xs
                 then Raise TypeError else Ok PNone,
                 [YamlLoad t]))).
Proof.
  intros content. destruct (yaml_after_cut content) as (t & Hcut & Hrun).
  exists t. split; [exact Hcut|]. intros Hocc. rewrite (Hrun Hocc).
  unfold emit, lift, bind. repeat split.
  - intros e ->. reflexivity.
  - intros ->. reflexivity.
  - intros x ->. reflexivity.
  - intros s ->. simpl. now destruct (contains s "first_line_match").
  - intros xs ->. simpl.
    now destruct (existsb (is_key "first_line_match") xs).
Qed.

End YamlDocuments.

(* ================================================================= *)
(** * The event gate, guard by guard *)

Section GateMore.
Import Py Sublime Spec Terms.
Context {RE : ReLib}.

(** X9.  [isEventListenerEnabled] never raises: it returns the flag of
    the event when [event_listeners] has one, logging nothing; when
    [event_listeners] is not set or has no flag for the event, it
    returns [True] and logs one warning that names the event. *)
Theorem X9_missing_toggle_counts_as_enabled :
  forall (g : AutoSet.Globals) (event : string),
    (forall d flag,
        AutoSet.event_listeners (AutoSet.settings g) = Some d ->
        AutoSet.dict_lookup event d = Some flag ->
        AutoSet.isEventListenerEnabled g event = (Ok flag, []))
    /\
    (AutoSet.event_listeners (AutoSet.settings g) = None
     \/ (exists d, AutoSet.event_listeners (AutoSet.settings g) = Some d
                   /\ AutoSet.dict_lookup event d = None) ->
     AutoSet.isEventListenerEnabled g event
     = (Ok true,
        [LogWarning (dquote ++ "event_listeners -> " ++ event ++ dquote
                     ++ " is not set in user settings (assumed true)")%string])).
Proof.
  intros g event.
  unfold AutoSet.isEventListenerEnabled, AutoSet.event_listener_flag. split.
  - intros d flag -> ->. reflexivity.
  - intros [->|(d & -> & ->)]; reflexivity.
Qed.

Lemma isEventListenerEnabled_toggle (g : AutoSet.Globals) (key : string) :
  exists tr,
    AutoSet.isEventListenerEnabled g key = (Ok (toggle_on g key), tr)
    /\ no_command tr.
Proof.
  unfold AutoSet.isEventListenerEnabled, toggle_on, lift.
  destruct (AutoSet.event_listener_flag g key) as [[|]|e]; simpl;
    eexists; (split; [reflexivity|]);
    try apply no_command_nil.
  intros name [H|[]]. discriminate.
Qed.

Lemma isOnWorkingScope_on_scope (g : AutoSet.Globals) (view : View) :
  exists tr,
    AutoSet.isOnWorkingScope g view = (Ok (on_scope g view), tr)
    /\ no_command tr.
Proof.
  unfold AutoSet.isOnWorkingScope, on_scope.
  destruct (AutoSet.workingScopeRegex g) as [r|]; simpl.
  - destruct (re_search r (scope_name0 view)); simpl; eexists;
      (split; [reflexivity|]); intros name [H|[]]; discriminate.
  - exists []. split; [reflexivity | apply no_command_nil].
Qed.

Lemma and_then_both (x y : Py.M AutoSet.Ev bool) (a b : bool)
  (ta tb : list AutoSet.Ev) :
  x = (Ok a, ta) -> y = (Ok b, tb) -> no_command ta -> no_command tb ->
  exists tr, AutoSet.and_then x y = (Ok (a && b), tr) /\ no_command tr.
Proof.
  intros -> -> Ha Hb. unfold AutoSet.and_then. cbn [bind].
  destruct a; simpl; eexists; (split; [reflexivity|]).
  - now apply no_command_app.
  - now rewrite app_nil_r.
Qed.

Lemma cursor_guards (g : AutoSet.Globals) (view : View) :
  exists tr,
    AutoSet.and_then (ret (AutoSet.isOnlyOneCursor view))
      (AutoSet.and_then (AutoSet.isFirstCursorNearBeginning view)
         (AutoSet.isOnWorkingScope g view))
    = (Ok (cursor_near_beginning view && on_scope g view), tr)
    /\ no_command tr.
Proof.
  destruct (isOnWorkingScope_on_scope g view) as (ts & Hs & Hns).
  unfold AutoSet.isOnlyOneCursor, cursor_near_beginning,
    AutoSet.isFirstCursorNearBeginning.
  destruct (sel view) as [|cursor [|c2 rest]].
  - exists []. split; [reflexivity | apply no_command_nil].
  - destruct (and_then_both (ret (row view (a cursor) <? 2)%Z)
                (AutoSet.isOnWorkingScope g view) _ _ [] ts eq_refl Hs
                no_command_nil Hns) as (tr & Htr & Hn).
    unfold AutoSet.and_then at 1. cbn [List.length Nat.eqb ret bind].
    rewrite Htr. exists ([] ++ tr). now split.
  - exists []. split; [reflexivity | apply no_command_nil].
Qed.

(** The condition of every handler is the conjunction of its guards. *)
Lemma handler_condition (g : AutoSet.Globals) (e : AutoSet.HostEvent)
  (view : View) :
  exists cond tr,
    AutoSet.deliver g e view = AutoSet.when_run g view cond
    /\ cond = (Ok (gate_open g e view), tr) /\ no_command tr.
Proof.
  destruct (isOnWorkingScope_on_scope g view) as (ts & Hs & Hns).
  destruct (isEventListenerEnabled_toggle g (toggle_key e)) as (tw & Hw & Hnw).
  assert (Hsimple :
            exists tr,
              AutoSet.and_then (AutoSet.isEventListenerEnabled g (toggle_key e))
                (AutoSet.isOnWorkingScope g view)
              = (Ok (on_scope g view && toggle_on g (toggle_key e) && true), tr)
              /\ no_command tr).
  { destruct (and_then_both _ _ _ _ _ _ Hw Hs Hnw Hns) as (tr & Htr & Hn).
    exists tr. split; [|assumption]. rewrite Htr.
    now rewrite andb_true_r, andb_comm. }
  unfold gate_open.
  destruct e; try (destruct Hsimple as (tr & Htr & Hn);
                   eexists _, tr; repeat split; [exact Htr | assumption]).
  - (* modified *)
    destruct (cursor_guards g view) as (tc & Hc & Hnc).
    destruct (and_then_both _ _ _ _ _ _ Hw Hc Hnw Hnc) as (tr & Htr & Hn).
    eexists _, tr. repeat split; [|assumption]. simpl toggle_key in *.
    rewrite Htr. f_equal. f_equal.
    destruct (on_scope g view), (toggle_on g "on_modified_async"),
      (cursor_near_beginning view); reflexivity.
  - (* a text command has been executed *)
    destruct (and_then_both _
                (ret (String.eqb command_name "patse"
                      || String.eqb command_name "paste_and_indent"))
                _ _ _ [] Hw eq_refl Hnw no_command_nil) as (t1 & Ht1 & Hn1).
    destruct (and_then_both _ _ _ _ _ _ Hs Ht1 Hns Hn1) as (tr & Htr & Hn).
    eexists _, tr. repeat split; [|assumption]. simpl toggle_key in *.
    rewrite Htr. now rewrite andb_assoc.
Qed.

Lemma when_run_decides (g : AutoSet.Globals) (view : View) (c : bool)
  (tc : list AutoSet.Ev) :
  AutoSet.when_run g view (Ok c, tc)
  = if c
    then (fst (AutoSet.run g view),
          tc ++ RunCommand "auto_set_syntax" :: snd (AutoSet.run g view))
    else (Ok view, tc).
Proof.
  unfold AutoSet.when_run, AutoSet.run_command. cbn [bind]. destruct c.
  - cbn [emit bind String.eqb]. simpl String.eqb.
    destruct (AutoSet.run g view) as [r t]. reflexivity.
  - simpl. now rewrite app_nil_r.
Qed.

Lemma deliver_decides (g : AutoSet.Globals) (e : AutoSet.HostEvent)
  (view : View) :
  exists tr,
    no_command tr
    /\ AutoSet.deliver g e view
       = if gate_open g e view
         then (fst (AutoSet.run g view),
               tr ++ RunCommand "auto_set_syntax" :: snd (AutoSet.run g view))
         else (Ok view, tr).
Proof.
  destruct (handler_condition g e view) as (cond & tr & -> & -> & Hn).
  exists tr. split; [assumption | apply when_run_decides].
Qed.

(** X11.  A handler runs [auto_set_syntax], once and on the view of the
    event, exactly when all its guards hold: the working-scope filter
    is set and found in the scope of the view, the toggle of the event
    is not [False], for the modified event there is one cursor on one
    of the first two rows, and for a text command the name is one the
    handler compares with.  Otherwise it runs no command and returns
    the view as it is. *)
Theorem X11_gate_is_the_conjunction_of_guards :
  forall (g : AutoSet.Globals) (e : AutoSet.HostEvent) (view : View),
    (gate_open g e view = true ->
     exists tr,
       no_command tr
       /\ AutoSet.deliver g e view
          = (fst (AutoSet.run g view),
             tr ++ RunCommand "auto_set_syntax" :: snd (AutoSet.run g view)))
    /\
    (gate_open g e view = false ->
     exists tr, no_command tr /\ AutoSet.deliver g e view = (Ok view, tr)).
Proof.
  intros g e view. destruct (deliver_decides g e view) as (tr & Hn & Hd).
  split; intros Hg; rewrite Hg in Hd; now exists tr.
Qed.

End GateMore.

(* ================================================================= *)
(** * One host-discovered entry for a syntax *)

Section HostEntriesDistinct.
Import Py Sublime Spec Terms.
Context {RE : ReLib} {YAML : YamlLib}.

Lemma host_entries_names (res : Resources) (files : list string) :
  NoDup (map resource_name files) ->
  NoDup (map (fun e : Entry => resource_name (fst e))
           (host_entries res files))
  /\ forall e, In e (host_entries res files) -> In (fst e) files.
Proof.
  induction files as [|f files IH]; intros Hnd; simpl.
  - split; [constructor | intros e []].
  - inversion Hnd as [|? ? Hnotin Hnd']; subst.
    destruct (IH Hnd') as [IHnd IHin].
    assert (Hrest :
              NoDup (map (fun e : Entry => resource_name (fst e))
                       (host_entries res files))
              /\ forall e, In e (host_entries res files) ->
                           f = fst e \/ In (fst e) files)
      by (split; [assumption | intros e He; right; now apply IHin]).
    destruct (NewFile.findFirstLineMatch (load_resource res f))
      as [[[|p|x|xs|items]|ex] t]; try exact Hrest.
    destruct (re_compile p) as [r|]; [|exact Hrest].
    split.
    + simpl. constructor; [|assumption].
      intros H. apply in_map_iff in H as (e & He & Hin).
      apply Hnotin. rewrite <- He. apply in_map. now apply IHin.
    + intros e [<-|He]; [now left | right; now apply IHin].
Qed.

(** X15.  In a table of the running plugin the identifier of every
    host-discovered entry is a resource the host reported, and no two
    host-discovered entries have the same name without extension: a
    syntax that comes in both formats gets one entry. *)
Theorem X15_one_host_entry_for_a_syntax :
  forall (res : Resources) (settings : NewFile.Settings)
         (self : NewFile.SyntaxMappings),
    built res settings self ->
    (forall e, In e (NewFile.syntaxMappingsSt self) -> In (fst e) (found res))
    /\ NoDup (map (fun e : Entry => resource_name (fst e))
                (NewFile.syntaxMappingsSt self)).
Proof.
  intros res settings self Hb.
  destruct (built_shape res settings self Hb) as [-> _].
  destruct (resources_found_and_distinct res) as [Hfound Hnd].
  destruct (host_entries_names res _ Hnd) as [Hnames Hin].
  split; [|assumption].
  intros e He. apply Hfound. now apply Hin.
Qed.

End HostEntriesDistinct.

(* ================================================================= *)
(** * The further properties on the sample host *)

Section OnSamplesMore.
Import Py Sublime Spec Samples Terms.

Lemma X2_witness :
  In "Packages/Java/Java.sublime-syntax"
     (NewFile.findSyntaxResources java_packages true)
  /\ ~ In "Packages/Java/Java.tmLanguage"
          (NewFile.findSyntaxResources java_packages true).
Proof.
  destruct (X2_first_resource_of_a_name_is_kept java_packages []
              ["Packages/Java/Java.tmLanguage"; "Packages/C/C.tmLanguage"]
              "Packages/Java/Java.sublime-syntax" eq_refl
              (fun q (H : In q []) => match H with end))
    as [Hkept Honly].
  split; [exact Hkept|].
  intros H. specialize (Honly _ H eq_refl). discriminate.
Defined.

Lemma X3_witness :
  NewFile.findFirstLineMatchXml php_tmLanguage = PStr "^#!.*php".
Proof.
  apply (X3_xml_extracts_declared_pattern
           ("<plist><dict><key>fileTypes</key><array/>" ++ nl ++ "<key>")%string
           (nl ++ "  ")%string "^#!.*php" (nl ++ "</dict></plist>")%string);
    [|reflexivity|reflexivity].
  exact (proj2 (proj2 (find_from_some "firstLineMatch" php_tmLanguage 0 _
                         eq_refl))).
Defined.

Lemma X4_witness :
  exists pre ws post,
    php_tmLanguage
    = (pre ++ "firstLineMatch</key>" ++ ws ++ "<string>" ++ "^#!.*php"
       ++ "</string>" ++ post)%string
    /\ all_space ws = true /\ ~ occurs "</string>" "^#!.*php".
Proof.
  exact (proj2 (X4_xml_result_is_declared php_tmLanguage) "^#!.*php" eq_refl).
Defined.

Lemma X6_witness :
  exists st tr,
    NewFile.buildSyntaxMappingsFromSt (RE := Toy.re) (YAML := Toy.yaml)
      packages = (Ok st, tr).
Proof.
  apply (proj1 (X6_host_build_returns_iff_extractor_returns
                  (RE := Toy.re) (YAML := Toy.yaml) packages)).
  intros f [<-|[<-|[]]]; eexists _, _; reflexivity.
Defined.

Lemma X7_witness :
  rebuild None user_table = (Raise AttributeError, [])
  /\ exists self' tr tr',
       rebuild (Some [("X", ["x"; "("])]) user_table = (Ok self', tr)
       /\ NewFile.syntaxMappingsSt self' = NewFile.syntaxMappingsSt user_table
       /\ construct (RE := Toy.re) (YAML := Toy.yaml) packages
            (Some [("X", ["x"; "("])]) = (Ok self', tr')
       /\ rebuild (Some [("X", ["x"; "("])]) self' = (Ok self', tr).
Proof.
  destruct (X7_rebuild_equals_fresh_table (RE := Toy.re) (YAML := Toy.yaml)
              packages user_settings user_table user_table_built)
    as (Hunset & Hset & _).
  split; [exact Hunset | exact (Hset [("X", ["x"; "("])])].
Defined.

Lemma X8_witness :
  (set_syntax_file ruby_script "Packages/User/A.sublime-syntax" = ruby_script
   \/ exists e, In e (NewFile.value user_table)
                /\ entry_matches
                     (NewFile.getPartialFirstLine user_settings ruby_script) e
                   = true
                /\ set_syntax_file ruby_script "Packages/User/A.sublime-syntax"
                   = set_syntax_file ruby_script (fst e))
  /\ NewFile.matchAndSetSyntax user_settings user_table
       (set_syntax_file ruby_script "Packages/User/A.sublime-syntax")
     = (Ok (set_syntax_file ruby_script "Packages/User/A.sublime-syntax"),
        searches "#!/usr/bin/ruby" (snd entry_A)).
Proof.
  destruct (proj2 (X8_applier_sets_a_matching_syntax_once (RE := Toy.re)
                     (loaded "plain" all_enabled) user_settings user_table
                     ruby_script)
              (set_syntax_file ruby_script "Packages/User/A.sublime-syntax")
              (searches "#!/usr/bin/ruby" (snd entry_A)) eq_refl)
    as [Hout Hagain].
  split; [exact Hout|]. apply Hagain; reflexivity.
Defined.

Lemma X9_witness :
  AutoSet.isEventListenerEnabled (loaded "plain" None) "on_load_async"
  = (Ok true,
     [LogWarning (dquote ++ "event_listeners -> on_load_async" ++ dquote
                  ++ " is not set in user settings (assumed true)")%string]).
Proof.
  exact (proj2 (X9_missing_toggle_counts_as_enabled (RE := Toy.re)
                  (loaded "plain" None) "on_load_async")
           (or_introl eq_refl)).
Defined.

Lemma X11_witness :
  (exists tr,
      no_command tr
      /\ AutoSet.deliver (loaded "plain" all_enabled) AutoSet.Loaded ruby_script
         = (fst (AutoSet.run (loaded "plain" all_enabled) ruby_script),
            tr ++ RunCommand "auto_set_syntax"
               :: snd (AutoSet.run (loaded "plain" all_enabled) ruby_script)))
  /\
  (exists tr,
      no_command tr
      /\ AutoSet.deliver (loaded "plain" all_enabled) AutoSet.Modified
           (mkView (buffer ruby_script) [] "text.plain" EmptyString)
         = (Ok (mkView (buffer ruby_script) [] "text.plain" EmptyString), tr)).
Proof.
  split.
  - exact (proj1 (X11_gate_is_the_conjunction_of_guards (RE := Toy.re)
                    (loaded "plain" all_enabled) AutoSet.Loaded ruby_script)
             eq_refl).
  - exact (proj2 (X11_gate_is_the_conjunction_of_guards (RE := Toy.re)
                    (loaded "plain" all_enabled) AutoSet.Modified
                    (mkView (buffer ruby_script) [] "text.plain" EmptyString))
             eq_refl).
Defined.

Lemma X12_witness :
  NewFile.findFirstLineMatchYaml (RE := Toy.re) (YAML := Toy.yaml)
    broken_syntax
  = (Raise YAMLError, [YamlLoad broken_syntax]).
Proof.
  destruct (X12_yaml_document_that_is_no_mapping (RE := Toy.re)
              (YAML := Toy.yaml) broken_syntax) as (t & Hcut & Hdoc).
  assert (Ht : t = broken_syntax)
    by exact (cut_at_first_unique _ _ _ _ Hcut (yaml_cut broken_syntax)).
  subst t.
  destruct Hdoc as (Hraise & _); [apply find_present; reflexivity|].
  apply Hraise. reflexivity.
Defined.

Lemma X13_witness :
  NewFile.on_modified_async (RE := Toy.re) user_settings user_table ruby_script
  = NewFile.matchAndSetSyntax user_settings user_table ruby_script.
Proof.
  exact (proj2 (X13_new_file_modified_guards (RE := Toy.re)
                  user_settings user_table ruby_script)
           eq_refl).
Defined.

Lemma X15_witness :
  NoDup (map (fun e : Entry (RE := Toy.re) => resource_name (fst e))
           (NewFile.syntaxMappingsSt user_table)).
Proof.
  exact (proj2 (X15_one_host_entry_for_a_syntax (RE := Toy.re)
                  (YAML := Toy.yaml) packages user_settings user_table
                  user_table_built)).
Defined.

End OnSamplesMore.
